(** * renderable: reactive server-rendered fragments

    A shallow embedding of [renderable/router.py] and
    [renderable/component.py], together with the properties of the
    session handshake, the server-sent-event dispatcher, the component
    decorator and the fragment container that the specification states.

    Python objects with identity (sessions) live in a heap indexed by
    object identity; the session store, the request and the ambient
    context hold references into that heap, so aliasing is explicit.
    Code that can raise runs in a state-and-exception monad in which a
    raised exception keeps every mutation made before it. *)

From Stdlib Require Import Ascii.
From stdpp Require Import base option strings gmap list pretty.

(** ** Python values and helpers *)

Module Python.

(** The exceptions that the modelled code can raise. [UserError] stands
    for whatever an application callable raises; [HeapFault] is the
    model's own signal for a reference to an object that is not in the
    heap, which a well-formed world never produces. *)
Inductive exn :=
| TypeError (msg : string)
| ValueError (msg : string)
| AttributeError (msg : string)
| NotFound (key : string)
| RequestValidationError (param : string)
| UserError (msg : string)
| HeapFault.

Definition nl : string := String "010"%char EmptyString.

(** [bool(s)] for a string. *)
Definition truthy (s : string) : bool :=
  match s with
  | EmptyString => false
  | String _ _ => true
  end.

(** [bool(x)] for [x : str | None]. *)
Definition truthy_opt (o : option string) : bool :=
  match o with
  | Some s => truthy s
  | None => false
  end.

(** [x or d] for [x : str | None] and a string [d]. *)
Definition or_str (o : option string) (d : string) : string :=
  match o with
  | Some s => if truthy s then s else d
  | None => d
  end.

(** [f"{x}"] for [x : str | None]. *)
Definition fmt_opt (o : option string) : string :=
  match o with
  | Some s => s
  | None => "None"
  end.

Fixpoint endswith_slash (s : string) : bool :=
  match s with
  | EmptyString => false
  | String c EmptyString => Ascii.eqb c "/"%char
  | String _ rest => endswith_slash rest
  end.

Definition startswith_slash (s : string) : bool :=
  match s with
  | String c _ => Ascii.eqb c "/"%char
  | EmptyString => false
  end.

(** [posixpath.join(a, b)]. *)
Definition os_path_join (a b : string) : string :=
  if startswith_slash b then b
  else if negb (truthy a) || endswith_slash a then a +:+ b
  else a +:+ "/" +:+ b.

End Python.
Export Python.

(** ** Data model *)

(** Object identity, as [id(obj)] returns it. *)
Abbreviation oid := N.

Record HTMX := {
  hx_url : option string;
  hx_method : option string;
  hx_include : option string;
  hx_trigger : option string;
  hx_ext : option string;
  hx_sse_connect : option string
}.

(** Modelled from the spec: the markup DSL of [renderable/tags.py] is
    outside the sources at hand ("the markup-generation DSL that turns a
    render call into HTML text" is an external collaborator). A tag is
    kept as the keyword arguments it was built with and the tags emitted
    inside its [with] block. *)
#[local] Set Warnings "-register-all".
Inductive Tag :=
| MkTag (name : string) (class_ : option string) (id : option string)
        (hx : option HTMX) (src : option string) (lang : option string)
        (text : option string) (children : list Tag).

Definition tag_name (t : Tag) : string := let 'MkTag n _ _ _ _ _ _ _ := t in n.

(** A fragment object: the class it was instantiated from and its object
    identity. Class attributes are read through the class table. *)
Record Component := {
  c_class : oid;
  c_id : oid
}.

(** One session's application state. *)
Record State := {
  st_values : gmap string string
}.

(** [Type[State]]: calling the schema builds a State. *)
Record StateSchema := {
  schema_new : State
}.

(** Modelled from the spec: [renderable/session.py] is outside the sources
    at hand. A Session owns "token (opaque, unguessable), one State
    (optional ...), one Component Registry, one Notification Channel";
    the channel is "an unbounded, FIFO ... queue of fragment
    identifiers". *)
Record Session := {
  s_id : string;
  s_state : option State;
  s_components : gmap string Component;
  s_queue : list string
}.

(** Modelled from the spec: [renderable/context.py] is outside the sources
    at hand. The Request Context exposes "current session
    (read/replace), current fragment's render-output buffer ..., pending
    parsed form inputs". *)
Record Context := {
  ctx_session : option oid;
  ctx_root_tags : list Tag;
  ctx_inputs : gmap string string
}.

(** The run-time world: the heap of Session objects, the process-wide
    Session Store (token to Session reference) and the ambient context. *)
Record World := {
  w_sessions : gmap oid Session;
  w_store : gmap string oid;
  w_ctx : Context
}.

Definition set_sessions (f : gmap oid Session → gmap oid Session) (w : World) : World :=
  {| w_sessions := f (w_sessions w); w_store := w_store w; w_ctx := w_ctx w |}.

Definition set_store (f : gmap string oid → gmap string oid) (w : World) : World :=
  {| w_sessions := w_sessions w; w_store := f (w_store w); w_ctx := w_ctx w |}.

Definition set_ctx (f : Context → Context) (w : World) : World :=
  {| w_sessions := w_sessions w; w_store := w_store w; w_ctx := f (w_ctx w) |}.

(** ** The monad of code that mutates the world and may raise *)

Definition M (A : Type) : Type := World → World * (exn + A).

Definition ret {A} (x : A) : M A := λ w, (w, inr x).

Definition throw {A} (e : exn) : M A := λ w, (w, inl e).

Definition bind {A B} (m : M A) (k : A → M B) : M B :=
  λ w, match m w with
       | (w', inr x) => k x w'
       | (w', inl e) => (w', inl e)
       end.

Notation "'do' x <- m ; k" := (bind m (λ x, k))
  (at level 10, x pattern, m at level 100, k at level 200).
Notation "m ;; k" := (bind m (λ _, k))
  (at level 100, k at level 200, right associativity).

(** [try: body finally: fin]. The [finally] block runs on both exits; an
    exception of the block itself replaces the pending outcome. *)
Definition try_finally {A} (body : M A) (fin : M unit) : M A :=
  λ w, match body w with
       | (w', r) =>
           match fin w' with
           | (w'', inr _) => (w'', r)
           | (w'', inl e) => (w'', inl e)
           end
       end.


(** ** The ambient context (context.py) *)

Module context.

Definition get_session : M (option oid) :=
  λ w, (w, inr (ctx_session (w_ctx w))).

Definition set_session (session : oid) : M unit :=
  λ w, (set_ctx (λ c, {| ctx_session := Some session;
                         ctx_root_tags := ctx_root_tags c;
                         ctx_inputs := ctx_inputs c |}) w, inr tt).

Definition get_root_tags : M (list Tag) :=
  λ w, (w, inr (ctx_root_tags (w_ctx w))).

Definition put_root_tags (tags : list Tag) (w : World) : World :=
  set_ctx (λ c, {| ctx_session := ctx_session c;
                   ctx_root_tags := tags;
                   ctx_inputs := ctx_inputs c |}) w.

Definition clear_root_tags : M unit :=
  λ w, (put_root_tags [] w, inr tt).

Definition set_inputs (inputs : gmap string string) : M unit :=
  λ w, (set_ctx (λ c, {| ctx_session := ctx_session c;
                         ctx_root_tags := ctx_root_tags c;
                         ctx_inputs := inputs |}) w, inr tt).

End context.

(** ** Sessions and the Session Store (session.py) *)

(** Reading an attribute of the Session object behind a reference. *)
Definition deref (session : oid) : M Session :=
  λ w, match w_sessions w !! session with
       | Some s => (w, inr s)
       | None => (w, inl HeapFault)
       end.

Definition update_session (session : oid) (f : Session → Session) : M unit :=
  λ w, match w_sessions w !! session with
       | Some s => (set_sessions (λ h, <[session := f s]> h) w, inr tt)
       | None => (w, inl HeapFault)
       end.

Module SessionStorage.

(** Modelled from the spec: [SessionStorage.get_session] of session.py.
    The Session Store is a "process-wide mapping from session token to
    Session, with creation/lookup/eviction"; the router tests the result
    with [if not session], so an unknown token yields [None]. *)
Definition get_session (session_id : string) : M (option oid) :=
  λ w, (w, inr (w_store w !! session_id)).

(** Modelled from the spec: [SessionStorage.create_session] of
    session.py. The new Session is a new object holding the given State,
    an empty Component Registry and an empty Notification Channel, and
    is entered in the Store under its token. [new_token] is the opaque
    token the storage draws for it. *)
Definition create_session (new_token : string) (state : option State) : M oid :=
  λ w, let a := fresh (dom (w_sessions w)) in
       let s := {| s_id := new_token; s_state := state;
                   s_components := ∅; s_queue := [] |} in
       (set_store (λ st, <[new_token := a]> st)
          (set_sessions (λ h, <[a := s]> h) w), inr a).

(** Modelled from the spec: [SessionStorage.delete_session] of
    session.py: "entries created by first request, removed on disconnect
    detection". The Session object itself stays alive for whoever still
    holds a reference. *)
Definition delete_session (session_id : string) : M unit :=
  λ w, (set_store (λ st, delete session_id st) w, inr tt).

End SessionStorage.

Module SessionOps.

(** Modelled from the spec: [Session.add_component]: "inserts using the
    fragment's identifier; re-registering the same identifier replaces
    the prior mapping". The key is the instance identifier that the
    fragment endpoint receives as [id=<fragment_instance_id>]. *)
Definition add_component (session : oid) (key : string) (c : Component) : M unit :=
  update_session session
    (λ s, {| s_id := s_id s; s_state := s_state s;
             s_components := <[key := c]> (s_components s);
             s_queue := s_queue s |}).

(** Modelled from the spec: [Session.get_component]: "returns the
    fragment object or fails with NotFound". *)
Definition get_component (session : oid) (id : string) : M Component :=
  do s <- deref session;
  match s_components s !! id with
  | Some c => ret c
  | None => throw (NotFound id)
  end.

(** Pushing an identifier onto the Notification Channel of a session. *)
Definition push (session : oid) (component_id : string) : M unit :=
  update_session session
    (λ s, {| s_id := s_id s; s_state := s_state s;
             s_components := s_components s;
             s_queue := s_queue s ++ [component_id] |}).

End SessionOps.

(** ** The router (router.py) *)

Record Cookie := {
  ck_key : string;
  ck_value : string;
  ck_httponly : bool;
  ck_max_age : Z
}.

Record Request := {
  req_cookies : gmap string string;
  req_query : gmap string string;
  req_form : gmap string string;
  req_state_session : option oid
}.

Record Response := {
  resp_set_cookies : list Cookie
}.

Definition set_cookie (response : Response) (c : Cookie) : Response :=
  {| resp_set_cookies := resp_set_cookies response ++ [c] |}.

(** The configuration [RenderableRouter.__init__] stores on the router;
    [prefix] is the path prefix that [APIRouter.__init__] keeps from the
    keyword arguments passed on to it (empty unless the application gives
    one). *)
Record RouterConfig := {
  prefix : string;
  _state_schema : option StateSchema;
  _session_cookie_key : string;
  _session_cookie_max_age : Z;
  _htmx_cdn : string;
  _htmx_sse : string;
  _loader_class : string;
  _loader_route_prefix : string;
  _js_script : string
}.

(** [RenderableRouter._get_or_create_session]. *)
Definition _get_or_create_session (self : RouterConfig) (new_token : string)
    (request : Request) (response : Response) : M (Request * Response * oid) :=
  let session_id := req_cookies request !! _session_cookie_key self in
  let state := match _state_schema self with
               | Some schema => Some (schema_new schema)
               | None => None
               end in
  do session <-
    (match session_id with
     | Some sid =>
         if truthy sid then
           do found <- SessionStorage.get_session sid;
           match found with
           | Some session => ret session
           | None => SessionStorage.create_session new_token state
           end
         else SessionStorage.create_session new_token state
     | None => SessionStorage.create_session new_token state
     end);
  let request := {| req_cookies := req_cookies request;
                    req_query := req_query request;
                    req_form := req_form request;
                    req_state_session := Some session |} in
  context.set_session session;;
  do s <- deref session;
  let response :=
    if negb (truthy_opt session_id) || negb (bool_decide (session_id = Some (s_id s)))
    then set_cookie response
           {| ck_key := _session_cookie_key self; ck_value := s_id s;
              ck_httponly := true; ck_max_age := _session_cookie_max_age self |}
    else response in
  ret (request, response, session).

(** ** The push dispatcher: [sse_endpoint] and its [event_stream] *)

(** The text frame [f"event: {component_id}\ndata: -\n\n"]. *)
Definition sse_frame (component_id : string) : string :=
  "event: " +:+ component_id +:+ nl +:+ "data: -" +:+ nl +:+ nl.

(** Modelled from the spec: [Session.get_updated_component_id] of
    session.py "suspends the calling stream loop until an identifier is
    available, then returns it (consumes it)". [None] is the suspended
    caller: nothing is consumed and the caller stays where it is. *)
Definition get_updated_component_id (session : oid) (w : World)
    : option (World * string) :=
  match w_sessions w !! session with
  | Some s =>
      match s_queue s with
      | component_id :: rest =>
          Some (set_sessions
                  (λ h, <[session := {| s_id := s_id s; s_state := s_state s;
                                        s_components := s_components s;
                                        s_queue := rest |}]> h) w,
                component_id)
      | [] => None
      end
  | None => None
  end.

(** Where the generator is suspended: before the disconnect poll at the
    top of the loop, inside [await session.get_updated_component_id()],
    or after [break]. Consuming an identifier and yielding its frame
    happen in one resumption: there is no [await] between them. *)
Inductive pc := AtCheck | AtAwait | Finished.

Record Stream := {
  es_world : World;
  es_session : oid;
  es_sid : string;
  es_pc : pc;
  es_disconnected : bool;
  es_emitted : list string;
  es_consumed : list string
}.

(** The first resumption of [event_stream()]: it binds [session] to
    [request.state.session] and [sid] to [session.id], and reaches the
    loop. *)
Definition event_stream (request : Request) (w : World) : exn + Stream :=
  match req_state_session request with
  | Some session =>
      match deref session w with
      | (_, inr s) =>
          inr {| es_world := w; es_session := session; es_sid := s_id s;
                 es_pc := AtCheck; es_disconnected := false;
                 es_emitted := []; es_consumed := [] |}
      | (_, inl e) => inl e
      end
  | None => inl (AttributeError "session")
  end.

(** One resumption of the generator, up to its next suspension. *)
Definition resume (g : Stream) : Stream :=
  match es_pc g with
  | AtCheck =>
      if es_disconnected g then
        {| es_world := (SessionStorage.delete_session (es_sid g) (es_world g)).1;
           es_session := es_session g; es_sid := es_sid g;
           es_pc := Finished; es_disconnected := es_disconnected g;
           es_emitted := es_emitted g; es_consumed := es_consumed g |}
      else
        {| es_world := es_world g;
           es_session := es_session g; es_sid := es_sid g;
           es_pc := AtAwait; es_disconnected := es_disconnected g;
           es_emitted := es_emitted g; es_consumed := es_consumed g |}
  | AtAwait =>
      match get_updated_component_id (es_session g) (es_world g) with
      | Some (w', component_id) =>
          {| es_world := w';
             es_session := es_session g; es_sid := es_sid g;
             es_pc := AtCheck; es_disconnected := es_disconnected g;
             es_emitted := es_emitted g ++ [sse_frame component_id];
             es_consumed := es_consumed g ++ [component_id] |}
      | None => g
      end
  | Finished => g
  end.

(** What the cooperative scheduler interleaves with the dispatcher: the
    dispatcher is resumed, the client goes away, or another task pushes
    an identifier onto some session's channel. *)
Inductive event :=
| Resume
| ClientDisconnect
| Enqueue (session : oid) (component_id : string).

Definition step (g : Stream) (e : event) : Stream :=
  match e with
  | Resume => resume g
  | ClientDisconnect =>
      {| es_world := es_world g;
         es_session := es_session g; es_sid := es_sid g;
         es_pc := es_pc g; es_disconnected := true;
         es_emitted := es_emitted g; es_consumed := es_consumed g |}
  | Enqueue session component_id =>
      {| es_world := (SessionOps.push session component_id (es_world g)).1;
         es_session := es_session g; es_sid := es_sid g;
         es_pc := es_pc g; es_disconnected := es_disconnected g;
         es_emitted := es_emitted g; es_consumed := es_consumed g |}
  end.

Definition run (schedule : list event) (g : Stream) : Stream :=
  foldl step g schedule.

(** The identifiers the schedule pushes onto the channel of [session]. *)
Fixpoint enqueued (session : oid) (schedule : list event) : list string :=
  match schedule with
  | [] => []
  | Enqueue a component_id :: rest =>
      if bool_decide (a = session) then component_id :: enqueued session rest
      else enqueued session rest
  | _ :: rest => enqueued session rest
  end.

(** The channel of the dispatcher's session. *)
Definition channel (g : Stream) : list string :=
  match w_sessions (es_world g) !! es_session g with
  | Some s => s_queue s
  | None => []
  end.

(** ** Callables, signatures and dependency injection *)

Inductive pyval :=
| VStr (s : string)
| VComponent (c : Component).

(** A dependency callable with one request parameter, as
    [load_component_instance(id: str)] is. *)
Record Dependency := {
  dep_param : string;
  dep_call : string → M pyval
}.

Inductive default_value :=
| NoDefault
| Depends (d : Dependency).

(** [inspect.Parameter]. *)
Record Param := {
  p_name : string;
  p_keyword_only : bool;
  p_default : default_value
}.

(** A function object: its signature, whether it is a coroutine function,
    and what calling it with keyword arguments does. *)
Record Callable := {
  parameters : list Param;
  is_coroutine : bool;
  call : gmap string pyval → M unit
}.

(** What [getattr(cls, "view")] can find. *)
Inductive attr :=
| NoAttr
| NotCallable
| Method (f : Callable).

(** How the web framework fills one parameter from the request: a
    [Depends] default is called with its own request parameter, any other
    parameter is read from the query string. *)
Definition solve_parameter (request : Request) (p : Param) : M pyval :=
  match p_default p with
  | Depends d =>
      match req_query request !! dep_param d with
      | Some v => dep_call d v
      | None => throw (RequestValidationError (dep_param d))
      end
  | NoDefault =>
      match req_query request !! p_name p with
      | Some v => ret (VStr v)
      | None => throw (RequestValidationError (p_name p))
      end
  end.

Fixpoint solve_dependencies (request : Request) (ps : list Param)
    : M (gmap string pyval) :=
  match ps with
  | [] => ret ∅
  | p :: rest =>
      do v <- solve_parameter request p;
      do kwargs <- solve_dependencies request rest;
      ret (<[p_name p := v]> kwargs)
  end.

(** ** The markup buffer (tags.py) *)

Module tags.

(** Modelled from the spec: creating a tag appends it to the "current
    fragment's render-output buffer (append-only ...)". *)
Definition emit (t : Tag) : M unit :=
  λ w, (context.put_root_tags (ctx_root_tags (w_ctx w) ++ [t]) w, inr tt).

(** Modelled from the spec: [with tags.x(...): body]. The tags that the
    body emits become the children of the tag, and the tag joins the
    buffer that was current when the block was entered. *)
Definition with_tag (mk : list Tag → Tag) (body : M unit) : M unit :=
  λ w, let outer := ctx_root_tags (w_ctx w) in
       match body (context.put_root_tags [] w) with
       | (w', r) =>
           (context.put_root_tags
              (outer ++ [mk (ctx_root_tags (w_ctx w'))]) w', r)
       end.

End tags.

(** ** Components (component.py) *)

Module Comp.

(** The class attributes of a [Component] subclass. *)
Record ClassObj := {
  __name__ : string;
  view : attr;
  _container_id : option string;
  _url : option string;
  _class : option string;
  _loader_class : option string;
  _preload_content : option (Component → M unit)
}.

Definition _id_prefix : string := "cid_".

(** [async def view(self): raise NotImplementedError()]. *)
Definition base_view : Callable :=
  {| parameters := [{| p_name := "self"; p_keyword_only := false;
                       p_default := NoDefault |}];
     is_coroutine := true;
     call := λ _, throw (UserError "NotImplementedError") |}.

(** The [Component] base class as component.py declares it. *)
Definition base : ClassObj :=
  {| __name__ := "Component"; view := Method base_view;
     _container_id := None; _url := None; _class := None;
     _loader_class := None; _preload_content := None |}.

(** The class of an instance, through the table of class objects. *)
Definition class_of (classes : gmap oid ClassObj) (self : Component) : ClassObj :=
  default base (classes !! c_class self).

(** [str(id(self))]. *)
Definition component_id (self : Component) : string := pretty (c_id self).

(** [self._container_id or (self._id_prefix + self.component_id)]. *)
Definition container_id (classes : gmap oid ClassObj) (self : Component) : string :=
  or_str (_container_id (class_of classes self))
         (_id_prefix +:+ component_id self).

(** Modelled from the spec: [State.enqueue] of state.py. The spec names
    the manual reload trigger as the push "directly onto the
    Notification Channel, bypassing StateField"; the State reaches the
    channel of the Session that owns it. *)
Definition state_enqueue (owner : oid) (fragment_id : string) : M unit :=
  SessionOps.push owner fragment_id.

(** [Component.reload]. *)
Definition reload (classes : gmap oid ClassObj) (self : Component) : M unit :=
  do session <- context.get_session;
  match session with
  | None => throw (AttributeError "'NoneType' object has no attribute 'state'")
  | Some session =>
      do s <- deref session;
      match s_state s with
      | None =>
          throw (AttributeError "'NoneType' object has no attribute 'enqueue'")
      | Some _ => state_enqueue session (container_id classes self)
      end
  end.

Definition container_htmx (url container_id : string) : HTMX :=
  {| hx_url := Some url;
     hx_method := Some "post";
     hx_include := Some ("#" +:+ container_id);
     hx_trigger := Some ("load, " +:+ container_id +:+ ", sse:" +:+ container_id);
     hx_ext := None;
     hx_sse_connect := None |}.

(** [Component.model_post_init], run when an instance is constructed. *)
Definition model_post_init (classes : gmap oid ClassObj) (self : Component) : M unit :=
  do session <- context.get_session;
  match session with
  | None =>
      throw (AttributeError "'NoneType' object has no attribute 'add_component'")
  | Some session =>
      SessionOps.add_component session (component_id self) self;;
      context.set_session session;;
      let cls := class_of classes self in
      let component_id := component_id self in
      let container_id := container_id classes self in
      let url := fmt_opt (_url cls) +:+ "?id=" +:+ component_id in
      let htmx := container_htmx url container_id in
      match _loader_class cls with
      | None =>
          throw (TypeError "unsupported operand type(s) for +: 'NoneType' and 'str'")
      | Some loader_class =>
          tags.with_tag
            (MkTag "div" (Some (loader_class +:+ " " +:+ or_str (_class cls) EmptyString))
                   (Some container_id) (Some htmx) None None None)
            (match _preload_content cls with
             | Some preload => preload self
             | None => ret tt
             end)
      end
  end.

End Comp.

(** ** Registration: routes, reload fields and the decorators *)

Inductive RouteEndpoint :=
| SseEndpoint
| ViewEndpoint (signature : list Param) (run : gmap string pyval → M string).

(** An entry of a router's [dependencies] list: one the application
    passed in, or [Depends(self._get_or_create_session)] of the router
    [self]. *)
Inductive RouterDependency :=
| UserDependency (d : Request → M unit)
| SessionDependency (self : RouterConfig).

Record Route := {
  route_path : string;
  route_methods : list string;
  route_dependencies : list RouterDependency;
  route_endpoint : RouteEndpoint
}.

(** The router's dependencies (fixed when the router is built) and what
    registration mutates: the router's route table, the class objects,
    and the reload registrations held by the StateField objects of the
    state schema. *)
Record App := {
  app_dependencies : list RouterDependency;
  app_routes : list Route;
  app_classes : gmap oid Comp.ClassObj;
  app_fields : gmap string (list string)
}.

(** [APIRouter.add_api_route] of the web framework, as far as the router
    uses it: the route is registered at [self.prefix + path] and carries
    the router's dependencies followed by the route's own. *)
Definition add_api_route (self : RouterConfig)
    (router_dependencies : list RouterDependency) (path : string)
    (endpoint : RouteEndpoint) (dependencies : list RouterDependency)
    (methods : list string) (routes : list Route) : list Route :=
  routes ++ [{| route_path := prefix self +:+ path;
                route_methods := methods;
                route_dependencies := router_dependencies ++ dependencies;
                route_endpoint := endpoint |}].

(** Modelled from the spec: [StateField.register_component_reload] of
    state.py: "register(fragment_id) adds fragment_id to the notification
    set, idempotent", the identifiers being kept "in the fixed order the
    fragment_ids were registered". *)
Definition register_component_reload (state_field id : string)
    (fields : gmap string (list string)) : gmap string (list string) :=
  let ids := default [] (fields !! state_field) in
  if bool_decide (id ∈ ids) then <[state_field := ids]> fields
  else <[state_field := ids ++ [id]]> fields.

(** [RenderableRouter._load_inputs]. *)
Definition _load_inputs (request : Request) : M unit :=
  let inputs := req_form request in
  context.set_inputs inputs.

(** The path given for the stream endpoint, which is also the path the
    page scaffold connects to:
    [os.path.join(self._loader_route_prefix, "sse")]. *)
Definition sse_path (self : RouterConfig) : string :=
  os_path_join (_loader_route_prefix self) "sse".

(** [RenderableRouter._register_sse_endpoint]. *)
Definition _register_sse_endpoint (self : RouterConfig)
    (router_dependencies : list RouterDependency)
    (dependencies : option (list (Request → M unit)))
    (routes : list Route) : list Route :=
  add_api_route self router_dependencies (sse_path self) SseEndpoint
    (UserDependency <$> default [] dependencies) ["GET"] routes.

(** [load_component_instance] inside [_replace_self]. *)
Definition load_component_instance (id : string) : M pyval :=
  do session <- context.get_session;
  match session with
  | None =>
      throw (AttributeError "'NoneType' object has no attribute 'get_component'")
  | Some session =>
      do component <- SessionOps.get_component session id;
      ret (VComponent component)
  end.

Definition self_dep_param : Param :=
  {| p_name := "self";
     p_keyword_only := true;
     p_default := Depends {| dep_param := "id";
                             dep_call := load_component_instance |} |}.

Definition has_self (ps : list Param) : bool :=
  existsb (λ p, String.eqb (p_name p) "self") ps.

(** [RenderableRouter._replace_self]. *)
Definition _replace_self (method : Callable) : Callable :=
  if negb (has_self (parameters method)) then method
  else
    let args := filter (λ p, p_name p ≠ "self") (parameters method) in
    let args := args ++ [self_dep_param] in
    {| parameters := args;
       is_coroutine := false;
       call := λ kwargs, call method kwargs |}.

(** The keyword arguments of [RenderableRouter.component]. *)
Record ComponentArgs := {
  arg_id : option string;
  arg_path : option string;
  arg_prefix : option string;
  arg_dependencies : option (list (Request → M unit));
  arg_reload_on : option (list string);
  arg_template : option (M unit);
  arg_preload_content : option (Component → M unit);
  arg_class_ : option string
}.

(** The [endpoint] closure that [component] registers. *)
Definition endpoint (html : Tag → string) (template : option (M unit))
    (is_async : bool) (view_func : Callable) (kwargs : gmap string pyval) : M string :=
  context.clear_root_tags;;
  (match template with
   | Some template => template
   | None => ret tt
   end);;
  try_finally
    ((if is_async then call view_func kwargs else call view_func kwargs);;
     do root_tags <- context.get_root_tags;
     ret (String.concat EmptyString (map html root_tags)))
    context.clear_root_tags.

(** The decorator returned by [RenderableRouter.component], applied to
    the class object [cls]. *)
Definition component (html : Tag → string) (self : RouterConfig)
    (args : ComponentArgs) (cls : oid) (app : App) : exn + App :=
  let deps := [_load_inputs] in
  let deps := match arg_dependencies args with
              | Some dependencies => deps ++ dependencies
              | None => deps
              end in
  match app_classes app !! cls with
  | None => inl (TypeError "Decorated class must be a subclass of Component")
  | Some c =>
      match Comp.view c with
      | NoAttr => inl (AttributeError "view")
      | NotCallable => inl (TypeError "Decorated class must have a view method")
      | Method view_func =>
          let is_async := is_coroutine view_func in
          let view_func := _replace_self view_func in
          let url := os_path_join
                       (or_str (arg_prefix args) (_loader_route_prefix self))
                       (or_str (arg_path args) (Comp.__name__ c)) in
          let registered : exn + gmap string (list string) :=
            match arg_reload_on args with
            | Some ((_ :: _) as reload_on) =>
                match arg_id args with
                | Some id =>
                    if negb (truthy id) then
                      inl (ValueError "id must be specified if reload_on is used")
                    else if negb (bool_decide (is_Some (_state_schema self))) then
                      inl (ValueError
                             "state_schema must be set on the router if reload_on is used")
                    else
                      inr (foldl (λ fields state_field,
                                    register_component_reload state_field id fields)
                                 (app_fields app) reload_on)
                | None =>
                    inl (ValueError "id must be specified if reload_on is used")
                end
            | _ => inr (app_fields app)
            end in
          match registered with
          | inl e => inl e
          | inr fields =>
              let c' := {| Comp.__name__ := Comp.__name__ c;
                           Comp.view := Comp.view c;
                           Comp._container_id := arg_id args;
                           Comp._url := Some url;
                           Comp._class := arg_class_ args;
                           Comp._loader_class := Some (_loader_class self);
                           Comp._preload_content := arg_preload_content args |} in
              inr {| app_dependencies := app_dependencies app;
                     app_routes :=
                       add_api_route self (app_dependencies app) url
                         (ViewEndpoint (parameters view_func)
                            (endpoint html (arg_template args) is_async view_func))
                         (UserDependency <$> deps) ["GET"; "POST"]
                         (app_routes app);
                     app_classes := <[cls := c']> (app_classes app);
                     app_fields := fields |}
          end
      end
  end.



(** ** Definitions used to state the properties *)

(** Every token of the Store refers to a live Session that carries this
    very token as its [id]. *)
Definition store_wf (w : World) : Prop :=
  ∀ tok a, w_store w !! tok = Some a →
    ∃ s, w_sessions w !! a = Some s ∧ s_id s = tok.

Definition empty_world : World :=
  {| w_sessions := ∅; w_store := ∅;
     w_ctx := {| ctx_session := None; ctx_root_tags := []; ctx_inputs := ∅ |} |}.

(** The Session that [create_session] builds for a router. *)
Definition new_session (self : RouterConfig) (new_token : string) : Session :=
  {| s_id := new_token;
     s_state := schema_new <$> _state_schema self;
     s_components := ∅;
     s_queue := [] |}.

(** The world after a session was created and bound to the context. *)
Definition world_with_new_session (self : RouterConfig) (new_token : string)
    (w : World) : World :=
  let a := fresh (dom (w_sessions w)) in
  {| w_sessions := <[a := new_session self new_token]> (w_sessions w);
     w_store := <[new_token := a]> (w_store w);
     w_ctx := {| ctx_session := Some a;
                 ctx_root_tags := ctx_root_tags (w_ctx w);
                 ctx_inputs := ctx_inputs (w_ctx w) |} |}.

Definition session_cookie (self : RouterConfig) (value : string) : Cookie :=
  {| ck_key := _session_cookie_key self; ck_value := value;
     ck_httponly := true; ck_max_age := _session_cookie_max_age self |}.

Definition bound_request (request : Request) (session : oid) : Request :=
  {| req_cookies := req_cookies request; req_query := req_query request;
     req_form := req_form request; req_state_session := Some session |}.

(** The token a request presents. *)
Definition presented_token (self : RouterConfig) (request : Request) : option string :=
  req_cookies request !! _session_cookie_key self.



(** ** Concrete inputs *)

Definition demo_schema : StateSchema :=
  {| schema_new := {| st_values := {[ "count" := "0" ]} |} |}.

(** A router built with the defaults of [RenderableRouter.__init__]. *)
Definition demo_router : RouterConfig :=
  {| prefix := EmptyString;
     _state_schema := None;
     _session_cookie_key := "sid";
     _session_cookie_max_age := 60 * 60 * 24 * 7;
     _htmx_cdn := "https://unpkg.com/htmx.org";
     _htmx_sse := "https://unpkg.com/htmx.org/dist/ext/sse.js";
     _loader_class := "__componentLoader__";
     _loader_route_prefix := "/__renderable__";
     _js_script := EmptyString |}.

(** The same router with [state_schema] set. *)
Definition demo_router_with_state : RouterConfig :=
  {| prefix := EmptyString;
     _state_schema := Some demo_schema;
     _session_cookie_key := "sid";
     _session_cookie_max_age := 60 * 60 * 24 * 7;
     _htmx_cdn := "https://unpkg.com/htmx.org";
     _htmx_sse := "https://unpkg.com/htmx.org/dist/ext/sse.js";
     _loader_class := "__componentLoader__";
     _loader_route_prefix := "/__renderable__";
     _js_script := EmptyString |}.

Definition request_without_cookie : Request :=
  {| req_cookies := ∅; req_query := ∅; req_form := ∅;
     req_state_session := None |}.

Definition request_with_cookie (token : string) : Request :=
  {| req_cookies := {[ "sid" := token ]}; req_query := ∅; req_form := ∅;
     req_state_session := None |}.

Definition empty_response : Response := {| resp_set_cookies := [] |}.

(** The world after a first request without cookie was given the token
    ["t-1"]. *)
Definition world_one_session : World :=
  (_get_or_create_session demo_router "t-1" request_without_cookie
     empty_response empty_world).1.

(** A world with one session whose channel already holds two identifiers,
    and the stream request of that session. *)
Definition world_with_pending : World :=
  (SessionOps.push 0%N "F3"
     (SessionOps.push 0%N "F1" world_one_session).1).1.

Definition stream_request : Request :=
  {| req_cookies := {[ "sid" := "t-1" ]}; req_query := ∅; req_form := ∅;
     req_state_session := Some 0%N |}.

(** The dispatcher of [stream_request] right after it was opened. *)
Definition opened_stream : Stream :=
  {| es_world := world_with_pending; es_session := 0%N; es_sid := "t-1";
     es_pc := AtCheck; es_disconnected := false;
     es_emitted := []; es_consumed := [] |}.

(** A simple stand-in for [tag.html()]. *)
Definition demo_html (t : Tag) : string := "<" +:+ tag_name t +:+ "/>".

Definition self_param : Param :=
  {| p_name := "self"; p_keyword_only := false; p_default := NoDefault |}.

(** [async def view(self): tags.p("Hello World")]. *)
Definition hello_view : Callable :=
  {| parameters := [self_param];
     is_coroutine := true;
     call := λ _, tags.emit (MkTag "p" None None None None None (Some "Hello World") []) |}.

(** A view whose render logic raises after it emitted a tag. *)
Definition failing_view : Callable :=
  {| parameters := [self_param];
     is_coroutine := true;
     call := λ _, tags.emit (MkTag "p" None None None None None (Some "partial") []);;
                  throw (UserError "boom") |}.

Definition counter_class : Comp.ClassObj :=
  {| Comp.__name__ := "Counter"; Comp.view := Method hello_view;
     Comp._container_id := None; Comp._url := None; Comp._class := None;
     Comp._loader_class := None; Comp._preload_content := None |}.

(** An application with two undecorated classes and the stream route. *)
Definition app_before : App :=
  {| app_dependencies := [SessionDependency demo_router_with_state];
     app_routes :=
       _register_sse_endpoint demo_router_with_state
         [SessionDependency demo_router_with_state] None [];
     app_classes := {[ 1%N := counter_class; 2%N := counter_class ]};
     app_fields := ∅ |}.

(** [@router.component(id="F1", reload_on=[State.count])]. *)
Definition args_with_id : ComponentArgs :=
  {| arg_id := Some "F1"; arg_path := None; arg_prefix := None;
     arg_dependencies := None; arg_reload_on := Some ["count"];
     arg_template := None; arg_preload_content := None; arg_class_ := None |}.

(** [@router.component()]. *)
Definition args_plain : ComponentArgs :=
  {| arg_id := None; arg_path := None; arg_prefix := None;
     arg_dependencies := None; arg_reload_on := None;
     arg_template := None; arg_preload_content := None; arg_class_ := None |}.

(** [@router.component(reload_on=[State.count])]: no id. *)
Definition args_reload_without_id : ComponentArgs :=
  {| arg_id := None; arg_path := None; arg_prefix := None;
     arg_dependencies := None; arg_reload_on := Some ["count"];
     arg_template := None; arg_preload_content := None; arg_class_ := None |}.

Definition or_unchanged (app : App) (r : exn + App) : App :=
  match r with
  | inr app' => app'
  | inl _ => app
  end.

(** Class 1 decorated with an explicit id, class 2 without one. *)
Definition app_decorated : App :=
  let app1 := or_unchanged app_before
                (component demo_html demo_router_with_state args_with_id 1%N app_before) in
  or_unchanged app1 (component demo_html demo_router_with_state args_plain 2%N app1).

Definition fragment_a : Component := {| c_class := 1%N; c_id := 4302%N |}.
Definition fragment_b : Component := {| c_class := 1%N; c_id := 4318%N |}.
Definition fragment_c : Component := {| c_class := 2%N; c_id := 4334%N |}.

(** The world after [fragment_a] was constructed in the first session. *)
Definition world_after_construction : World :=
  (Comp.model_post_init (app_classes app_decorated) fragment_a world_one_session).1.

(** A template that emits a tag and then raises, as a page's [head]
    callable may. *)
Definition failing_template : M unit :=
  tags.emit (MkTag "meta" None None None None None None []);;
  throw (UserError "head failed").

(** A request for the fragment endpoint of [fragment_a]. *)
Definition fragment_request : Request :=
  {| req_cookies := {[ "sid" := "t-1" ]}; req_query := {[ "id" := "4302" ]};
     req_form := ∅; req_state_session := Some 0%N |}.

(** A view without [self], as a page function is. *)
Definition page_view : Callable :=
  {| parameters := [{| p_name := "q"; p_keyword_only := false;
                       p_default := NoDefault |}];
     is_coroutine := false;
     call := λ _, tags.emit (MkTag "h1" None None None None None (Some "Home") []) |}.

(** A router built with [prefix="/app"], and an application of it with
    one undecorated class and the stream route. *)
Definition prefixed_router : RouterConfig :=
  {| prefix := "/app";
     _state_schema := None;
     _session_cookie_key := "sid";
     _session_cookie_max_age := 60 * 60 * 24 * 7;
     _htmx_cdn := "https://unpkg.com/htmx.org";
     _htmx_sse := "https://unpkg.com/htmx.org/dist/ext/sse.js";
     _loader_class := "__componentLoader__";
     _loader_route_prefix := "/__renderable__";
     _js_script := EmptyString |}.

Definition app_prefixed : App :=
  {| app_dependencies := [SessionDependency prefixed_router];
     app_routes :=
       _register_sse_endpoint prefixed_router
         [SessionDependency prefixed_router] None [];
     app_classes := {[ 1%N := counter_class ]};
     app_fields := ∅ |}.


(** ** Further definitions and inputs *)

(** A schedule in which nobody pushes onto any channel. *)
Definition no_producer (schedule : list event) : Prop :=
  Forall (λ e, e = Resume ∨ e = ClientDisconnect) schedule.

(** The dispatcher of [stream_request] while it waits on an empty
    channel. *)
Definition waiting_stream : Stream :=
  {| es_world := world_one_session; es_session := 0%N; es_sid := "t-1";
     es_pc := AtAwait; es_disconnected := false;
     es_emitted := []; es_consumed := [] |}.

(** The first session after its router was given a state schema: the
    world of a first request to [demo_router_with_state]. *)
Definition world_with_state : World :=
  (_get_or_create_session demo_router_with_state "t-1" request_without_cookie
     empty_response empty_world).1.

(** The dispatcher of the session of [world_with_state], connected and at
    the top of its loop. *)
Definition stream_with_state : Stream :=
  {| es_world := world_with_state; es_session := 0%N; es_sid := "t-1";
     es_pc := AtCheck; es_disconnected := false;
     es_emitted := []; es_consumed := [] |}.

(** A task of the dispatcher's session calls [component.reload()] between
    two resumptions of the dispatcher. *)
Definition reload_then_deliver (classes : gmap oid Comp.ClassObj)
    (self : Component) (g : Stream) : Stream :=
  let w := (Comp.reload classes self (es_world g)).1 in
  run [Resume; Resume]
    {| es_world := w; es_session := es_session g; es_sid := es_sid g;
       es_pc := es_pc g; es_disconnected := es_disconnected g;
       es_emitted := es_emitted g; es_consumed := es_consumed g |}.

(** A template that only emits a tag. *)
Definition banner_template : M unit :=
  tags.emit (MkTag "nav" None None None None None None []).

(** [@router.component(path="/widgets/counter", prefix="/ignored")]. *)
Definition args_absolute_path : ComponentArgs :=
  {| arg_id := None; arg_path := Some "/widgets/counter";
     arg_prefix := Some "/ignored";
     arg_dependencies := None; arg_reload_on := None;
     arg_template := None; arg_preload_content := None; arg_class_ := None |}.

(** [@router.component(reload_on=[])] on a router without state schema. *)
Definition args_empty_reload_on : ComponentArgs :=
  {| arg_id := None; arg_path := None; arg_prefix := None;
     arg_dependencies := None; arg_reload_on := Some [];
     arg_template := None; arg_preload_content := None; arg_class_ := None |}.

(** An instance of a class that was never decorated. *)
Definition undecorated_fragment : Component := {| c_class := 1%N; c_id := 5000%N |}.

(** ** Building the router: [RenderableRouter.__init__] *)

(** [str.replace(old, new)] for a non-empty [old]: occurrences are
    replaced from left to right and do not overlap. [skip] counts the
    characters of a matched occurrence that are still to be passed over. *)
Fixpoint replace_from (old new : string) (skip : nat) (s : string) : string :=
  match s with
  | EmptyString => EmptyString
  | String c rest =>
      match skip with
      | S k => replace_from old new k rest
      | O =>
          if String.prefix old s
          then new +:+ replace_from old new (String.length old - 1) rest
          else String c (replace_from old new 0 rest)
      end
  end.

(** [str.replace] with an empty [old]: [new] goes before every character
    and at the end. *)
Fixpoint replace_empty (new s : string) : string :=
  match s with
  | EmptyString => new
  | String c rest => new +:+ String c (replace_empty new rest)
  end.

(** [s.replace(old, new)]. *)
Definition str_replace (s old new : string) : string :=
  match old with
  | EmptyString => replace_empty new s
  | String _ _ => replace_from old new 0 s
  end.

(** [s[n:]]. *)
Fixpoint string_drop (n : nat) (s : string) : string :=
  match n, s with
  | O, _ => s
  | S k, String _ rest => string_drop k rest
  | S _, EmptyString => EmptyString
  end.

(** What [fastapi_router_kwargs] holds under ["dependencies"]: nothing, an
    explicit [None], a list object (by reference), or a tuple. *)
Inductive DependenciesKwarg :=
| DepsAbsent
| DepsNone
| DepsList (ref : oid)
| DepsTuple (items : list RouterDependency).

(** The arguments of [RenderableRouter.__init__]. *)
Record InitArgs := {
  init_prefix : string;
  init_state_schema : option StateSchema;
  init_session_cookie_key : string;
  init_session_cookie_max_age : Z;
  init_htmx_cdn : string;
  init_htmx_sse : string;
  init_loader_class : string;
  init_loader_route_prefix : string;
  init_sse_endpoint_dependencies : option (list (Request → M unit));
  init_dependencies : DependenciesKwarg
}.

(** A constructed router: its configuration, the list object handed to
    [APIRouter.__init__] as [dependencies], the copy of that list which
    the framework keeps as the router's own dependencies, and its
    routes. *)
Record Router := {
  router_config : RouterConfig;
  router_dependencies : oid;
  router_own_dependencies : list RouterDependency;
  router_routes : list Route
}.

Module RenderableRouter.

(** [RenderableRouter.__init__]. [JS_SCRIPT_TEMPLATE] is the text of
    script.js; [lists] is the heap of list objects, in which the list the
    caller passed as [dependencies] lives. [init_prefix] is the [prefix]
    keyword among [fastapi_router_kwargs]; the framework's own checks of
    its keyword arguments are not part of this model. *)
Definition __init__ (JS_SCRIPT_TEMPLATE : string) (args : InitArgs)
    (lists : gmap oid (list RouterDependency))
    : gmap oid (list RouterDependency) * (exn + Router) :=
  let self :=
    {| prefix := init_prefix args;
       _state_schema := init_state_schema args;
       _session_cookie_key := init_session_cookie_key args;
       _session_cookie_max_age := init_session_cookie_max_age args;
       _htmx_cdn := init_htmx_cdn args;
       _htmx_sse := init_htmx_sse args;
       _loader_class := init_loader_class args;
       _loader_route_prefix := init_loader_route_prefix args;
       _js_script := str_replace JS_SCRIPT_TEMPLATE "__componentLoader__"
                       (init_loader_class args) |} in
  let appended
      : gmap oid (list RouterDependency) * (exn + oid * list RouterDependency) :=
    match init_dependencies args with
    | DepsAbsent =>
        let ref := fresh (dom lists) in
        (<[ref := [SessionDependency self]]> lists,
         inr (ref, [SessionDependency self]))
    | DepsList ref =>
        match lists !! ref with
        | Some dependencies =>
            (<[ref := dependencies ++ [SessionDependency self]]> lists,
             inr (ref, dependencies ++ [SessionDependency self]))
        | None => (lists, inl HeapFault)
        end
    | DepsNone =>
        (lists, inl (AttributeError "'NoneType' object has no attribute 'append'"))
    | DepsTuple _ =>
        (lists, inl (AttributeError "'tuple' object has no attribute 'append'"))
    end in
  match appended with
  | (lists', inr (ref, dependencies)) =>
      (lists',
       inr {| router_config := self;
              router_dependencies := ref;
              router_own_dependencies := dependencies;
              router_routes :=
                _register_sse_endpoint self dependencies
                  (init_sse_endpoint_dependencies args) [] |})
  | (lists', inl e) => (lists', inl e)
  end.

End RenderableRouter.

(** [RenderableRouter()] with every default, and [dependencies] as
    given. *)
Definition default_init_args (dependencies : DependenciesKwarg) : InitArgs :=
  {| init_prefix := EmptyString;
     init_state_schema := None;
     init_session_cookie_key := "sid";
     init_session_cookie_max_age := 60 * 60 * 24 * 7;
     init_htmx_cdn := "https://unpkg.com/htmx.org";
     init_htmx_sse := "https://unpkg.com/htmx.org/dist/ext/sse.js";
     init_loader_class := "__componentLoader__";
     init_loader_route_prefix := "/__renderable__";
     init_sse_endpoint_dependencies := None;
     init_dependencies := dependencies |}.

(** A stand-in for the text of script.js. *)
Definition demo_script : string :=
  "htmx.findAll('.__componentLoader__'); // __componentLoader__".

(** A list object that the application shares between two routers. *)
Definition shared_lists : gmap oid (list RouterDependency) :=
  {[ 5%N := [UserDependency (λ _, ret tt)] ]}.

(** A world with two sessions: the one of [world_with_pending], and a
    second one under the token ["t-2"]; and the connected dispatcher of
    the first. *)
Definition world_two_sessions : World :=
  (_get_or_create_session demo_router "t-2" request_without_cookie
     empty_response world_with_pending).1.

Definition stream_of_first_session : Stream :=
  {| es_world := world_two_sessions; es_session := 0%N; es_sid := "t-1";
     es_pc := AtCheck; es_disconnected := false;
     es_emitted := []; es_consumed := [] |}.



(** The configuration that [RenderableRouter()] with every default
    stores when script.js is [demo_script]. *)
Definition default_router_config : RouterConfig :=
  {| prefix := EmptyString;
     _state_schema := None;
     _session_cookie_key := "sid";
     _session_cookie_max_age := 604800;
     _htmx_cdn := "https://unpkg.com/htmx.org";
     _htmx_sse := "https://unpkg.com/htmx.org/dist/ext/sse.js";
     _loader_class := "__componentLoader__";
     _loader_route_prefix := "/__renderable__";
     _js_script := demo_script |}.

(** * Properties *)

(** ** Well-formed worlds *)

Lemma store_wf_empty : store_wf empty_world.
Proof. intros tok a H. cbn in H. by rewrite lookup_empty in H. Qed.

Lemma fresh_session_new (w : World) : w_sessions w !! fresh (dom (w_sessions w)) = None.
Proof. apply not_elem_of_dom, is_fresh. Qed.

Lemma store_wf_create (new_token : string) (state : option State) (w : World) :
  store_wf w → store_wf (SessionStorage.create_session new_token state w).1.
Proof.
  intros Hwf tok a. cbn.
  destruct (decide (new_token = tok)) as [->|Hne].
  - rewrite lookup_insert_eq. intros [= <-].
    rewrite lookup_insert_eq. eauto.
  - rewrite lookup_insert_ne by done. intros Hs.
    destruct (Hwf _ _ Hs) as (s & Hs' & Hid).
    exists s. split; [|done].
    rewrite lookup_insert_ne; [done|].
    intros <-. by rewrite fresh_session_new in Hs'.
Qed.

Lemma store_wf_delete (session_id : string) (w : World) :
  store_wf w → store_wf (SessionStorage.delete_session session_id w).1.
Proof.
  intros Hwf tok a. cbn. intros [_ Hs]%lookup_delete_Some. by apply Hwf.
Qed.

(** ** The session handshake *)

(** [_get_or_create_session] when no token is presented or the presented
    token is not in the Store. *)
Lemma create_path (self : RouterConfig) (new_token : string)
    (request : Request) (response : Response) (w : World) :
  let session_id := presented_token self request in
  (truthy_opt session_id = false ∨
   ∃ tok, session_id = Some tok ∧ w_store w !! tok = None) →
  _get_or_create_session self new_token request response w =
    (world_with_new_session self new_token w,
     inr (bound_request request (fresh (dom (w_sessions w))),
          (if negb (truthy_opt session_id)
              || negb (bool_decide (session_id = Some new_token))
           then set_cookie response (session_cookie self new_token)
           else response),
          fresh (dom (w_sessions w)))).
Proof.
  intros session_id H. unfold _get_or_create_session.
  fold (presented_token self request). fold session_id.
  assert (Hstate : match _state_schema self with
                   | Some schema => Some (schema_new schema)
                   | None => None
                   end = schema_new <$> _state_schema self)
    by (by destruct (_state_schema self)).
  rewrite Hstate. clear Hstate.
  destruct H as [Hf | (tok & Htok & Hnone)].
  - rewrite Hf.
    assert (Hcreate :
      match session_id with
      | Some sid =>
          if truthy sid then
            do found <- SessionStorage.get_session sid;
            match found with
            | Some session => ret session
            | None => SessionStorage.create_session new_token
                        (schema_new <$> _state_schema self)
            end
          else SessionStorage.create_session new_token
                 (schema_new <$> _state_schema self)
      | None => SessionStorage.create_session new_token
                  (schema_new <$> _state_schema self)
      end = SessionStorage.create_session new_token
              (schema_new <$> _state_schema self)).
    { destruct session_id as [sid|]; [|done]. simpl in Hf. by rewrite Hf. }
    rewrite Hcreate. unfold bind, context.set_session, deref, ret. simpl.
    rewrite lookup_insert_eq. done.
  - rewrite Htok. cbn [truthy_opt].
    destruct (truthy tok);
      unfold bind, SessionStorage.get_session, context.set_session, deref, ret;
      rewrite ?Hnone; simpl; rewrite ?Hnone; simpl; rewrite lookup_insert_eq; done.
Qed.

(** [_get_or_create_session] when the presented token is in the Store. *)
Lemma known_path (self : RouterConfig) (new_token : string)
    (request : Request) (response : Response) (w : World)
    (tok : string) (a : oid) (s : Session) :
  presented_token self request = Some tok →
  truthy tok = true →
  w_store w !! tok = Some a →
  w_sessions w !! a = Some s →
  _get_or_create_session self new_token request response w =
    ((context.set_session a w).1,
     inr (bound_request request a,
          (if negb (bool_decide (Some tok = Some (s_id s)))
           then set_cookie response (session_cookie self (s_id s))
           else response),
          a)).
Proof.
  intros Htok Htruthy Hstore Hheap. unfold _get_or_create_session.
  fold (presented_token self request). rewrite Htok.
  cbn [truthy_opt]. rewrite Htruthy.
  unfold bind, SessionStorage.get_session, context.set_session, deref, ret.
  simpl. rewrite Hstore. simpl. rewrite Hheap. done.
Qed.

Lemma store_wf_get_or_create (self : RouterConfig) (new_token : string)
    (request : Request) (response : Response) (w : World) :
  store_wf w →
  store_wf (_get_or_create_session self new_token request response w).1.
Proof.
  intros Hwf.
  destruct (presented_token self request) as [tok|] eqn:Htok.
  - destruct (truthy tok) eqn:Htruthy.
    + destruct (w_store w !! tok) as [a|] eqn:Hstore.
      * destruct (Hwf _ _ Hstore) as (s & Hheap & _).
        by rewrite (known_path _ _ _ _ _ _ _ _ Htok Htruthy Hstore Hheap).
      * rewrite create_path by (right; eauto).
        apply (store_wf_create new_token (schema_new <$> _state_schema self) w Hwf).
    + rewrite create_path by (left; by rewrite Htok).
      apply (store_wf_create new_token (schema_new <$> _state_schema self) w Hwf).
  - rewrite create_path by (left; by rewrite Htok).
    apply (store_wf_create new_token (schema_new <$> _state_schema self) w Hwf).
Qed.

(** C3: a request that presents no session token, or a token that the
    Session Store does not know, gets a fresh session without any error:
    the call returns normally; the session is a new object holding the
    router's state (if any), an empty registry and an empty channel; it
    is entered in the Store, bound to [request.state.session] and to the
    ambient context, and returned. *)
Theorem C3_missing_or_unknown_token_creates_session
    (self : RouterConfig) (new_token : string)
    (request : Request) (response : Response) (w : World) :
  truthy_opt (presented_token self request) = false ∨
  (∃ tok, presented_token self request = Some tok ∧ w_store w !! tok = None) →
  ∃ w' request' response' session,
    _get_or_create_session self new_token request response w =
      (w', inr (request', response', session)) ∧
    (session ∉ dom (w_sessions w)) ∧
    w_sessions w' = <[session := new_session self new_token]> (w_sessions w) ∧
    w_store w' = <[new_token := session]> (w_store w) ∧
    req_state_session request' = Some session ∧
    ctx_session (w_ctx w') = Some session.
Proof.
  intros H. rewrite (create_path self new_token request response w H).
  eexists _, _, _, _. split; [reflexivity|].
  split; [apply is_fresh|]. done.
Qed.

Lemma C3_witness :
  (truthy_opt (presented_token demo_router (request_with_cookie "stale")) = false ∨
   (∃ tok, presented_token demo_router (request_with_cookie "stale") = Some tok ∧
           w_store world_one_session !! tok = None)) ∧
  ∃ w' request' response' session,
    _get_or_create_session demo_router "t-2" (request_with_cookie "stale")
      empty_response world_one_session =
      (w', inr (request', response', session)) ∧
    (session ∉ dom (w_sessions world_one_session)) ∧
    w_sessions w' = <[session := new_session demo_router "t-2"]>
                      (w_sessions world_one_session) ∧
    w_store w' = <[ "t-2" := session]> (w_store world_one_session) ∧
    req_state_session request' = Some session ∧
    ctx_session (w_ctx w') = Some session.
Proof.
  assert (H : truthy_opt (presented_token demo_router (request_with_cookie "stale")) = false ∨
              (∃ tok, presented_token demo_router (request_with_cookie "stale") = Some tok ∧
                      w_store world_one_session !! tok = None)).
  { right. exists "stale". split; vm_compute; reflexivity. }
  split; [exact H|].
  exact (C3_missing_or_unknown_token_creates_session demo_router "t-2"
           (request_with_cookie "stale") empty_response world_one_session H).
Defined.

(** C8: the session cookie is set on the response exactly when the
    request carried no token (no cookie, or an empty one) or the presented
    token differs from the id of the resolved session. The cookie that is
    set has the router's cookie key, the session's id as value, is
    http-only and has the router's [session_cookie_max_age]. When a token
    known to the Store is presented, the response is left as it was. *)
Theorem C8_session_cookie_set_iff_absent_or_mismatched
    (self : RouterConfig) (new_token : string)
    (request : Request) (response : Response) (w : World) :
  store_wf w →
  ∃ w' request' response' session s c,
    _get_or_create_session self new_token request response w =
      (w', inr (request', response', session)) ∧
    w_sessions w' !! session = Some s ∧
    ck_key c = _session_cookie_key self ∧
    ck_value c = s_id s ∧
    ck_httponly c = true ∧
    ck_max_age c = _session_cookie_max_age self ∧
    (truthy_opt (presented_token self request) = false ∨
     presented_token self request ≠ Some (s_id s) →
     response' = set_cookie response c) ∧
    (¬ (truthy_opt (presented_token self request) = false ∨
        presented_token self request ≠ Some (s_id s)) →
     response' = response) ∧
    (∀ tok, presented_token self request = Some tok → truthy tok = true →
            is_Some (w_store w !! tok) → response' = response).
Proof.
  intros Hwf.
  assert (Hcreate :
    truthy_opt (presented_token self request) = false ∨
    (∃ tok, presented_token self request = Some tok ∧ w_store w !! tok = None) →
    ∃ w' request' response' session s c,
      _get_or_create_session self new_token request response w =
        (w', inr (request', response', session)) ∧
      w_sessions w' !! session = Some s ∧
      ck_key c = _session_cookie_key self ∧
      ck_value c = s_id s ∧
      ck_httponly c = true ∧
      ck_max_age c = _session_cookie_max_age self ∧
      (truthy_opt (presented_token self request) = false ∨
       presented_token self request ≠ Some (s_id s) →
       response' = set_cookie response c) ∧
      (¬ (truthy_opt (presented_token self request) = false ∨
          presented_token self request ≠ Some (s_id s)) →
       response' = response) ∧
      (∀ tok, presented_token self request = Some tok → truthy tok = true →
              is_Some (w_store w !! tok) → response' = response)).
  { intros H. rewrite (create_path self new_token request response w H).
    eexists _, _, _, _, (new_session self new_token), (session_cookie self new_token).
    split; [reflexivity|].
    split; [simpl; apply lookup_insert_eq|].
    do 4 (split; [reflexivity|]).
    destruct (truthy_opt (presented_token self request)) eqn:Htr; simpl.
    - case_bool_decide as Heq; simpl.
      + split; [intros [?|?]; done|]. split; [done|]. done.
      + split; [done|]. split; [intros Hn; destruct Hn; by right|].
        intros tok Htok _ [a Ha]. destruct H as [?|(tok' & Htok' & Hnone)]; [done|].
        rewrite Htok in Htok'. injection Htok' as <-. by rewrite Ha in Hnone.
    - split; [done|]. split; [intros Hn; destruct Hn; by left|].
      intros tok Htok Htruthy _. rewrite Htok in Htr. simpl in Htr. congruence. }
  destruct (presented_token self request) as [tok|] eqn:Htok; [|apply Hcreate; by left].
  destruct (truthy tok) eqn:Htruthy; [|apply Hcreate; by left].
  destruct (w_store w !! tok) as [a|] eqn:Hstore; [|apply Hcreate; right; eauto].
  clear Hcreate.
  destruct (Hwf _ _ Hstore) as (s & Hheap & Hid).
  fold (presented_token self request).
  rewrite (known_path _ new_token _ response _ _ _ _ Htok Htruthy Hstore Hheap).
  eexists _, _, _, a, s, (session_cookie self (s_id s)).
  split; [reflexivity|].
  split; [exact Hheap|].
  do 4 (split; [reflexivity|]).
  rewrite Hid. rewrite bool_decide_eq_true_2 by done. simpl.
  split; [intros [Hf|Hne]; [simpl in Hf; congruence | done]|]. done.
Qed.

Lemma C8_witness :
  store_wf world_one_session ∧
  ∃ w' request' response' session s c,
    _get_or_create_session demo_router "t-2" (request_with_cookie "t-1")
      empty_response world_one_session =
      (w', inr (request', response', session)) ∧
    w_sessions w' !! session = Some s ∧
    ck_key c = _session_cookie_key demo_router ∧
    ck_value c = s_id s ∧
    ck_httponly c = true ∧
    ck_max_age c = _session_cookie_max_age demo_router ∧
    (truthy_opt (presented_token demo_router (request_with_cookie "t-1")) = false ∨
     presented_token demo_router (request_with_cookie "t-1") ≠ Some (s_id s) →
     response' = set_cookie empty_response c) ∧
    (¬ (truthy_opt (presented_token demo_router (request_with_cookie "t-1")) = false ∨
        presented_token demo_router (request_with_cookie "t-1") ≠ Some (s_id s)) →
     response' = empty_response) ∧
    (∀ tok, presented_token demo_router (request_with_cookie "t-1") = Some tok →
            truthy tok = true →
            is_Some (w_store world_one_session !! tok) → response' = empty_response).
Proof.
  assert (Hwf : store_wf world_one_session).
  { apply store_wf_get_or_create, store_wf_empty. }
  split; [exact Hwf|].
  exact (C8_session_cookie_set_iff_absent_or_mismatched demo_router "t-2"
           (request_with_cookie "t-1") empty_response world_one_session Hwf).
Defined.

(** ** The push dispatcher *)

Lemma push_store (session : oid) (component_id : string) (w : World) :
  w_store (SessionOps.push session component_id w).1 = w_store w.
Proof.
  unfold SessionOps.push, update_session.
  by destruct (w_sessions w !! session).
Qed.

Lemma step_locals (g : Stream) (e : event) :
  es_sid (step g e) = es_sid g ∧ es_session (step g e) = es_session g.
Proof.
  destruct e; simpl; [|done|done].
  unfold resume. destruct (es_pc g); [|  |done].
  - by destruct (es_disconnected g).
  - by destruct (get_updated_component_id (es_session g) (es_world g)) as [[]|].
Qed.

Lemma run_locals (schedule : list event) (g : Stream) :
  es_sid (run schedule g) = es_sid g ∧ es_session (run schedule g) = es_session g.
Proof.
  revert g. induction schedule as [|e schedule IH]; intros g; [done|].
  simpl. destruct (IH (step g e)) as [-> ->]. apply step_locals.
Qed.

Lemma run_app (s1 s2 : list event) (g : Stream) :
  run (s1 ++ s2) g = run s2 (run s1 g).
Proof. apply foldl_app. Qed.

(** After [break] the generator does nothing any more, whatever else
    happens: it emits nothing, consumes nothing and leaves the Store
    alone. *)
Lemma finished_is_final (schedule : list event) (g : Stream) :
  es_pc g = Finished →
  es_pc (run schedule g) = Finished ∧
  es_emitted (run schedule g) = es_emitted g ∧
  es_consumed (run schedule g) = es_consumed g ∧
  w_store (es_world (run schedule g)) = w_store (es_world g).
Proof.
  revert g. induction schedule as [|e schedule IH]; intros g Hpc; [done|].
  simpl.
  assert (Hstep : es_pc (step g e) = Finished ∧
                  es_emitted (step g e) = es_emitted g ∧
                  es_consumed (step g e) = es_consumed g ∧
                  w_store (es_world (step g e)) = w_store (es_world g)).
  { destruct e; simpl.
    - unfold resume. by rewrite Hpc.
    - done.
    - by rewrite push_store. }
  destruct Hstep as (Hpc' & He & Hc & Hs).
  destruct (IH _ Hpc') as (-> & -> & -> & ->). done.
Qed.

(** The poll that sees the client gone. *)
Lemma resume_disconnected (g : Stream) :
  es_pc g = AtCheck → es_disconnected g = true →
  es_pc (resume g) = Finished ∧
  es_world (resume g) = set_store (λ st, delete (es_sid g) st) (es_world g) ∧
  es_emitted (resume g) = es_emitted g ∧
  es_consumed (resume g) = es_consumed g.
Proof. intros Hpc Hd. unfold resume. by rewrite Hpc, Hd. Qed.

(** The poll that sees the client connected. *)
Lemma resume_connected (g : Stream) :
  es_pc g = AtCheck → es_disconnected g = false →
  es_pc (resume g) = AtAwait ∧
  es_world (resume g) = es_world g ∧
  es_emitted (resume g) = es_emitted g ∧
  es_consumed (resume g) = es_consumed g.
Proof. intros Hpc Hd. unfold resume. by rewrite Hpc, Hd. Qed.

(** A frame is only emitted by a resumption inside the [await], and the
    [await] is only entered from a poll that saw the client connected. *)
Lemma emission_follows_poll (g : Stream) (e : event) :
  (es_emitted (step g e) ≠ es_emitted g → e = Resume ∧ es_pc g = AtAwait) ∧
  (es_pc (step g e) = AtAwait →
   es_pc g = AtAwait ∨ (e = Resume ∧ es_pc g = AtCheck ∧ es_disconnected g = false)).
Proof.
  destruct e; simpl.
  - unfold resume. destruct (es_pc g) eqn:Hpc.
    + destruct (es_disconnected g); simpl; (split; [done|]); [done|auto].
    + auto.
    + split; [done|]. by rewrite Hpc.
  - split; [done|]. auto.
  - split; [done|]. auto.
Qed.

(** Once the client is gone it stays gone. *)
Lemma step_disconnected (g : Stream) (e : event) :
  es_disconnected g = true → es_disconnected (step g e) = true.
Proof.
  intros Hd. destruct e; simpl; [|done|done].
  unfold resume. destruct (es_pc g); [by rewrite Hd| |done].
  by destruct (get_updated_component_id (es_session g) (es_world g)) as [[]|].
Qed.

(** With the client gone, a dispatcher that is not inside its [await]
    emits nothing any more. *)
Lemma silent_after_disconnect (schedule : list event) (g : Stream) :
  es_disconnected g = true → es_pc g ≠ AtAwait →
  es_emitted (run schedule g) = es_emitted g.
Proof.
  revert g. induction schedule as [|e schedule IH]; intros g Hd Hpc; [done|].
  change (run (e :: schedule) g) with (run schedule (step g e)).
  assert (Hstep : es_pc (step g e) ≠ AtAwait ∧ es_emitted (step g e) = es_emitted g).
  { destruct e; simpl; [|done|done].
    unfold resume. destruct (es_pc g) eqn:Hg; [by rewrite Hd|done|by rewrite Hg]. }
  destruct Hstep as [Hpc' <-].
  apply IH; [by apply step_disconnected|done].
Qed.

(** A dispatcher that is inside its [await] when the client goes away
    still delivers the identifier it is waiting for, and only that one,
    before its next poll. *)
Lemma one_frame_in_flight (schedule : list event) (g : Stream) :
  es_disconnected g = true → es_pc g = AtAwait →
  es_emitted (run schedule g) = es_emitted g ∨
  ∃ component_id, es_emitted (run schedule g) = es_emitted g ++ [sse_frame component_id].
Proof.
  revert g. induction schedule as [|e schedule IH]; intros g Hd Hpc; [by left|].
  change (run (e :: schedule) g) with (run schedule (step g e)).
  pose proof (step_disconnected g e Hd) as Hd'.
  destruct e as [| |a c].
  - simpl in *. unfold resume in *. rewrite Hpc in *.
    destruct (get_updated_component_id (es_session g) (es_world g)) as [[w' c]|].
    + right. exists c. by rewrite silent_after_disconnect.
    + by apply IH.
  - apply (IH (step g ClientDisconnect)); done.
  - apply (IH (step g (Enqueue a c))); done.
Qed.

Lemma event_stream_start (request : Request) (w : World) (g0 : Stream) :
  event_stream request w = inr g0 →
  ∃ s, req_state_session request = Some (es_session g0) ∧
       w_sessions w !! es_session g0 = Some s ∧
       es_sid g0 = s_id s ∧ es_world g0 = w ∧ es_pc g0 = AtCheck ∧
       es_emitted g0 = [] ∧ es_consumed g0 = [].
Proof.
  unfold event_stream, deref.
  destruct (req_state_session request) as [a|]; [|done].
  destruct (w_sessions w !! a) as [s|] eqn:Hs; [|done].
  intros [= <-]. simpl. eauto 10.
Qed.

(** A resumption inside the [await]: with an identifier available it
    takes it, yields its frame and is back at the poll; with none it stays
    where it is. *)
Lemma resume_await (g : Stream) :
  es_pc g = AtAwait →
  (∀ w' component_id,
     get_updated_component_id (es_session g) (es_world g) = Some (w', component_id) →
     es_pc (resume g) = AtCheck ∧
     es_world (resume g) = w' ∧
     es_emitted (resume g) = es_emitted g ++ [sse_frame component_id] ∧
     es_consumed (resume g) = es_consumed g ++ [component_id]) ∧
  (get_updated_component_id (es_session g) (es_world g) = None → resume g = g).
Proof.
  intros Hpc. unfold resume. rewrite Hpc. split.
  - intros w' c ->. done.
  - by intros ->.
Qed.

(** C1, as the claim words it, fails: it has the session leave the Store
    before any identifier is emitted after the client went away. A
    dispatcher that is already waiting for the channel when the client
    disconnects takes the next identifier and yields its frame before it
    reaches the poll again; at that moment the session is still in the
    Store. *)
Lemma C1_counterexample :
  ¬ (∀ (request : Request) (w : World) (g0 : Stream) (before later : list event),
       event_stream request w = inr g0 →
       es_disconnected (run before g0) = true →
       es_emitted (run (before ++ later) g0) ≠ es_emitted (run before g0) →
       w_store (es_world (run (before ++ later) g0)) !! es_sid g0 = None).
Proof.
  intros H.
  assert (Hstart : event_stream stream_request world_with_pending = inr opened_stream)
    by (vm_compute; reflexivity).
  assert (Hgone : es_disconnected (run [Resume; ClientDisconnect] opened_stream) = true)
    by (vm_compute; reflexivity).
  assert (Hemit : es_emitted (run ([Resume; ClientDisconnect] ++ [Resume]) opened_stream)
                  ≠ es_emitted (run [Resume; ClientDisconnect] opened_stream))
    by (vm_compute; discriminate).
  specialize (H stream_request world_with_pending opened_stream
                [Resume; ClientDisconnect] [Resume] Hstart Hgone Hemit).
  vm_compute in H. discriminate H.
Qed.

(** C1, amended: the dispatcher starts at the disconnect poll and is back
    at it after every frame: a poll that sees the client connected only
    enters the [await], and a frame is emitted only from inside the
    [await], after which the next resumption polls again. Once the client
    has gone away, at most one further frame is emitted (that of the
    identifier the dispatcher was already waiting for), and none if the
    dispatcher was not inside its [await]. At its next poll the
    dispatcher removes the owning session from the Session Store and
    terminates: from that poll on, whatever happens, the session's token
    is absent from the Store and no identifier is consumed or emitted. *)
Theorem C1_disconnect_evicts_session_at_next_poll
    (request : Request) (w : World) (g0 : Stream) (before later : list event) :
  event_stream request w = inr g0 →
  es_disconnected (run before g0) = true →
  (∃ s, req_state_session request = Some (es_session g0) ∧
        w_sessions w !! es_session g0 = Some s ∧
        es_sid (run before g0) = s_id s) ∧
  es_pc g0 = AtCheck ∧
  (es_emitted (run (before ++ later) g0) = es_emitted (run before g0) ∨
   ∃ component_id,
     es_emitted (run (before ++ later) g0) =
       es_emitted (run before g0) ++ [sse_frame component_id]) ∧
  (es_pc (run before g0) ≠ AtAwait →
   es_emitted (run (before ++ later) g0) = es_emitted (run before g0)) ∧
  (es_pc (run before g0) = AtCheck →
   es_pc (resume (run before g0)) = Finished ∧
   w_store (es_world (resume (run before g0))) =
     delete (es_sid g0) (w_store (es_world (run before g0))) ∧
   w_store (es_world (run (before ++ Resume :: later) g0)) !! es_sid g0 = None ∧
   es_emitted (run (before ++ Resume :: later) g0) = es_emitted (run before g0) ∧
   es_consumed (run (before ++ Resume :: later) g0) = es_consumed (run before g0)) ∧
  (∀ g, es_pc g = AtCheck → es_disconnected g = false →
        es_pc (resume g) = AtAwait ∧
        es_world (resume g) = es_world g ∧
        es_emitted (resume g) = es_emitted g ∧
        es_consumed (resume g) = es_consumed g) ∧
  (∀ g w' component_id,
     es_pc g = AtAwait →
     get_updated_component_id (es_session g) (es_world g) = Some (w', component_id) →
     es_pc (resume g) = AtCheck ∧
     es_world (resume g) = w' ∧
     es_emitted (resume g) = es_emitted g ++ [sse_frame component_id] ∧
     es_consumed (resume g) = es_consumed g ++ [component_id]) ∧
  (∀ g e, (es_emitted (step g e) ≠ es_emitted g → e = Resume ∧ es_pc g = AtAwait) ∧
          (es_pc (step g e) = AtAwait →
           es_pc g = AtAwait ∨
           (e = Resume ∧ es_pc g = AtCheck ∧ es_disconnected g = false))).
Proof.
  intros Hstart Hd.
  destruct (event_stream_start _ _ _ Hstart) as (s & Hreq & Hs & Hsid & _ & Hpc0 & _).
  destruct (run_locals before g0) as [Hsid' _].
  split; [exists s; by rewrite Hsid'|].
  split; [exact Hpc0|].
  rewrite !run_app.
  split.
  { destruct (es_pc (run before g0)) eqn:Hpc.
    - left. apply silent_after_disconnect; [done|]. by rewrite Hpc.
    - by apply one_frame_in_flight.
    - left. apply silent_after_disconnect; [done|]. by rewrite Hpc. }
  split; [by apply silent_after_disconnect|].
  split.
  { intros Hpc.
    destruct (resume_disconnected _ Hpc Hd) as (Hfin & Hw & He & Hc).
    split; [done|].
    split; [by rewrite Hw, Hsid'|].
    change (run (Resume :: later) (run before g0))
      with (run later (resume (run before g0))).
    destruct (finished_is_final later _ Hfin) as (_ & -> & -> & ->).
    rewrite Hw, He, Hc, Hsid'. simpl.
    split; [apply lookup_delete_eq|]. done. }
  split; [apply resume_connected|].
  split; [intros g w' c Hpc Hget; by apply (resume_await g Hpc)|].
  apply emission_follows_poll.
Qed.

Lemma C1_witness :
  (event_stream stream_request world_with_pending = inr opened_stream ∧
   es_disconnected (run [Resume; Resume; ClientDisconnect] opened_stream) = true ∧
   es_pc (run [Resume; Resume; ClientDisconnect] opened_stream) = AtCheck) ∧
  w_store (es_world (run ([Resume; Resume; ClientDisconnect]
                            ++ Resume :: [Enqueue 0%N "F9"; Resume; Resume])
                         opened_stream)) !! "t-1" = None ∧
  es_emitted (run ([Resume; Resume; ClientDisconnect]
                     ++ Resume :: [Enqueue 0%N "F9"; Resume; Resume])
                  opened_stream) = [sse_frame "F1"].
Proof.
  assert (H1 : event_stream stream_request world_with_pending = inr opened_stream)
    by (vm_compute; reflexivity).
  assert (H2 : es_pc (run [Resume; Resume; ClientDisconnect] opened_stream) = AtCheck)
    by (vm_compute; reflexivity).
  assert (H3 : es_disconnected (run [Resume; Resume; ClientDisconnect] opened_stream) = true)
    by (vm_compute; reflexivity).
  split; [done|].
  destruct (C1_disconnect_evicts_session_at_next_poll
              stream_request world_with_pending opened_stream
              [Resume; Resume; ClientDisconnect]
              [Enqueue 0%N "F9"; Resume; Resume] H1 H3)
    as (_ & _ & _ & _ & Hpoll & _).
  destruct (Hpoll H2) as (_ & _ & Hgone & Hemitted & _).
  split; [exact Hgone|].
  rewrite Hemitted. vm_compute. reflexivity.
Defined.

Lemma enqueued_cons (session : oid) (e : event) (schedule : list event) :
  enqueued session (e :: schedule) = enqueued session [e] ++ enqueued session schedule.
Proof.
  destruct e as [| |a c]; simpl; [done|done|]. by case_bool_decide.
Qed.

(** Every step keeps the dispatcher's session alive and conserves the
    identifiers: what was consumed, followed by what is still queued, is
    what was there before followed by what the step pushed. *)
Lemma step_channel (g : Stream) (e : event) :
  is_Some (w_sessions (es_world g) !! es_session g) →
  is_Some (w_sessions (es_world (step g e)) !! es_session (step g e)) ∧
  es_consumed (step g e) ++ channel (step g e) =
    es_consumed g ++ channel g ++ enqueued (es_session g) [e].
Proof.
  intros [s Hs]. unfold channel.
  destruct e as [| |a c]; simpl.
  - unfold resume. destruct (es_pc g).
    + destruct (es_disconnected g); simpl; rewrite Hs, app_nil_r; eauto.
    + unfold get_updated_component_id. rewrite Hs.
      destruct (s_queue s) as [|x rest] eqn:Hq; simpl.
      * rewrite Hs, Hq. split; [eauto|done].
      * rewrite lookup_insert_eq. simpl. rewrite app_nil_r, <- app_assoc.
        split; [eauto|done].
    + rewrite Hs, app_nil_r. eauto.
  - rewrite Hs, app_nil_r. eauto.
  - unfold SessionOps.push, update_session.
    destruct (w_sessions (es_world g) !! a) as [s'|] eqn:Ha; simpl.
    + case_bool_decide as Heq.
      * subst a. rewrite lookup_insert_eq. simpl.
        rewrite Hs in Ha. injection Ha as <-. rewrite Hs. split; [eauto|done].
      * rewrite lookup_insert_ne by done. rewrite Hs, app_nil_r. eauto.
    + case_bool_decide as Heq; [subst a; congruence|].
      rewrite Hs, app_nil_r. eauto.
Qed.

Lemma run_channel (schedule : list event) (g : Stream) :
  is_Some (w_sessions (es_world g) !! es_session g) →
  es_consumed (run schedule g) ++ channel (run schedule g) =
    es_consumed g ++ channel g ++ enqueued (es_session g) schedule.
Proof.
  revert g. induction schedule as [|e schedule IH]; intros g Hs.
  - simpl. by rewrite app_nil_r.
  - destruct (step_channel g e Hs) as [Hs' Hstep].
    change (run (e :: schedule) g) with (run schedule (step g e)).
    rewrite (IH _ Hs'), (enqueued_cons _ e schedule).
    destruct (step_locals g e) as [_ ->].
    rewrite !app_assoc. f_equal. rewrite <- !app_assoc. exact Hstep.
Qed.

(** Every step emits the frame of exactly the identifier it consumes. *)
Lemma step_frames (g : Stream) (e : event) :
  es_emitted g = map sse_frame (es_consumed g) →
  es_emitted (step g e) = map sse_frame (es_consumed (step g e)).
Proof.
  intros H. destruct e; simpl; [|done|done].
  unfold resume. destruct (es_pc g); [by destruct (es_disconnected g)| |done].
  destruct (get_updated_component_id (es_session g) (es_world g)) as [[w' c]|];
    [|done].
  simpl. by rewrite map_app, H.
Qed.

Lemma run_frames (schedule : list event) (g : Stream) :
  es_emitted g = map sse_frame (es_consumed g) →
  es_emitted (run schedule g) = map sse_frame (es_consumed (run schedule g)).
Proof.
  revert g. induction schedule as [|e schedule IH]; intros g H; [done|].
  apply (IH (step g e)), step_frames, H.
Qed.

(** C6: for every identifier consumed from the session's Notification
    Channel the stream emits exactly one frame
    [event: <fragment_id>\ndata: -\n\n], and the frames come in the order
    in which the identifiers were consumed, which is the order in which
    they were queued: nothing is reordered, dropped or merged. *)
Theorem C6_one_frame_per_identifier_in_order
    (request : Request) (w : World) (g0 : Stream) (schedule : list event) :
  event_stream request w = inr g0 →
  es_emitted (run schedule g0) = map sse_frame (es_consumed (run schedule g0)) ∧
  es_consumed (run schedule g0) ++ channel (run schedule g0) =
    channel g0 ++ enqueued (es_session g0) schedule ∧
  (∀ component_id,
     sse_frame component_id =
       "event: " +:+ component_id +:+ nl +:+ "data: -" +:+ nl +:+ nl).
Proof.
  intros Hstart.
  destruct (event_stream_start _ _ _ Hstart) as (s & _ & Hs & _ & Hw & _ & He & Hc).
  split; [apply run_frames; by rewrite He, Hc|].
  split; [|done].
  rewrite run_channel; [by rewrite Hc|].
  rewrite Hw. eauto.
Qed.

Lemma C6_witness :
  event_stream stream_request world_with_pending = inr opened_stream ∧
  es_emitted (run [Resume; Resume; Enqueue 0%N "F1"; Resume; Resume; Resume; Resume]
                  opened_stream) =
    [sse_frame "F1"; sse_frame "F3"; sse_frame "F1"].
Proof.
  assert (H1 : event_stream stream_request world_with_pending = inr opened_stream)
    by (vm_compute; reflexivity).
  split; [exact H1|].
  destruct (C6_one_frame_per_identifier_in_order stream_request world_with_pending
              opened_stream
              [Resume; Resume; Enqueue 0%N "F1"; Resume; Resume; Resume; Resume] H1)
    as (Hframes & _ & _).
  rewrite Hframes. vm_compute. reflexivity.
Defined.

(** ** Components *)

(** With a State, [reload] pushes the container id once onto the channel
    of the ambient session and changes nothing else. *)
Lemma reload_with_state (classes : gmap oid Comp.ClassObj) (self : Component)
    (w : World) (session : oid) (s : Session) (st : State) :
  ctx_session (w_ctx w) = Some session →
  w_sessions w !! session = Some s →
  s_state s = Some st →
  Comp.reload classes self w =
    (set_sessions
       (λ h, <[session := {| s_id := s_id s; s_state := s_state s;
                             s_components := s_components s;
                             s_queue := s_queue s ++ [Comp.container_id classes self] |}]> h)
       w, inr tt).
Proof.
  intros Hctx Hs Hst.
  unfold Comp.reload, bind, context.get_session, deref, Comp.state_enqueue,
    SessionOps.push, update_session.
  rewrite Hctx. simpl. rewrite Hs, Hst. simpl. by rewrite Hs, Hst.
Qed.

(** C2 (how the code behaves for a session without State): [reload]
    reaches the channel through [session.state]; when the ambient session
    was built without a State schema, [session.state] is [None], the call
    raises [AttributeError] and nothing is queued: the world, and with it
    the session's channel, is left as it was. *)
Theorem C2_reload_without_state_raises
    (classes : gmap oid Comp.ClassObj) (self : Component)
    (w : World) (session : oid) (s : Session) :
  ctx_session (w_ctx w) = Some session →
  w_sessions w !! session = Some s →
  s_state s = None →
  Comp.reload classes self w =
    (w, inl (AttributeError "'NoneType' object has no attribute 'enqueue'")).
Proof.
  intros Hctx Hs Hst.
  unfold Comp.reload, bind, context.get_session, deref.
  rewrite Hctx. simpl. by rewrite Hs, Hst.
Qed.

Lemma C2_witness :
  (ctx_session (w_ctx world_one_session) = Some 0%N ∧
   w_sessions world_one_session !! 0%N = Some (new_session demo_router "t-1") ∧
   s_state (new_session demo_router "t-1") = None) ∧
  Comp.reload (app_classes app_decorated) fragment_a world_one_session =
    (world_one_session,
     inl (AttributeError "'NoneType' object has no attribute 'enqueue'")).
Proof.
  assert (H1 : ctx_session (w_ctx world_one_session) = Some 0%N)
    by (vm_compute; reflexivity).
  assert (H2 : w_sessions world_one_session !! 0%N =
               Some (new_session demo_router "t-1"))
    by (vm_compute; reflexivity).
  assert (H3 : s_state (new_session demo_router "t-1") = None)
    by reflexivity.
  split; [done|].
  exact (C2_reload_without_state_raises (app_classes app_decorated) fragment_a
           world_one_session 0%N (new_session demo_router "t-1") H1 H2 H3).
Defined.

(** The class object and the route that a successful decoration leaves
    behind: the class's [_url] is the joined url, the route is registered
    at the router's prefix followed by it. *)
Lemma component_sets_class_attributes (html : Tag → string) (self : RouterConfig)
    (args : ComponentArgs) (cls : oid) (app app' : App) :
  component html self args cls app = inr app' →
  ∃ c view_func,
    app_classes app !! cls = Some c ∧
    Comp.view c = Method view_func ∧
    app_classes app' =
      <[cls := {| Comp.__name__ := Comp.__name__ c;
                  Comp.view := Comp.view c;
                  Comp._container_id := arg_id args;
                  Comp._url :=
                    Some (os_path_join
                            (or_str (arg_prefix args) (_loader_route_prefix self))
                            (or_str (arg_path args) (Comp.__name__ c)));
                  Comp._class := arg_class_ args;
                  Comp._loader_class := Some (_loader_class self);
                  Comp._preload_content := arg_preload_content args |}]>
        (app_classes app) ∧
    route_path <$> last (app_routes app') =
      Some (prefix self +:+
              os_path_join (or_str (arg_prefix args) (_loader_route_prefix self))
                           (or_str (arg_path args) (Comp.__name__ c))).
Proof.
  unfold component.
  destruct (app_classes app !! cls) as [c|]; [|done].
  destruct (Comp.view c) as [| |view_func] eqn:Hview; [done|done|].
  match goal with
  | |- context [match ?r with inl e => inl e | inr fields => _ end] =>
      destruct r as [e|fields]
  end; [done|].
  intros [= <-]. exists c, view_func. unfold add_api_route. simpl.
  rewrite last_snoc, Hview. done.
Qed.







(** ** The component decorator *)

(** C9: the decorator writes the configuration (container id, endpoint
    URL, CSS class, loader class, preload content) into the class object;
    instances carry none of it and read it through their class, so all
    instances of a decorated class see the same configuration. The
    endpoint URL it stores is the url joined from prefix and path or class
    name; the route itself is registered at the router's own prefix
    followed by that url. With an
    explicit (non-empty) id every instance has that id as container id;
    without one the container id of an instance is ["cid_"] followed by
    [str(id(self))], which differs between distinct objects. *)
Theorem C9_configuration_is_stored_on_the_class
    (html : Tag → string) (self : RouterConfig) (args : ComponentArgs)
    (cls : oid) (app app' : App) (a b : Component) :
  component html self args cls app = inr app' →
  c_class a = cls → c_class b = cls →
  (∃ c0 c,
        app_classes app !! cls = Some c0 ∧
        app_classes app' !! cls = Some c ∧
        Comp.class_of (app_classes app') a = c ∧
        Comp.class_of (app_classes app') b = c ∧
        Comp._container_id c = arg_id args ∧
        Comp._url c =
          Some (os_path_join (or_str (arg_prefix args) (_loader_route_prefix self))
                             (or_str (arg_path args) (Comp.__name__ c0))) ∧
        route_path <$> last (app_routes app') =
          Some (prefix self +:+
                  os_path_join (or_str (arg_prefix args) (_loader_route_prefix self))
                               (or_str (arg_path args) (Comp.__name__ c0))) ∧
        Comp._class c = arg_class_ args ∧
        Comp._loader_class c = Some (_loader_class self) ∧
        Comp._preload_content c = arg_preload_content args) ∧
  (∀ id, arg_id args = Some id → truthy id = true →
     Comp.container_id (app_classes app') a = id ∧
     Comp.container_id (app_classes app') b = id) ∧
  (truthy_opt (arg_id args) = false →
     Comp.container_id (app_classes app') a = "cid_" +:+ pretty (c_id a) ∧
     Comp.container_id (app_classes app') b = "cid_" +:+ pretty (c_id b) ∧
     (c_id a ≠ c_id b →
      Comp.container_id (app_classes app') a ≠ Comp.container_id (app_classes app') b)).
Proof.
  intros Hdec Ha Hb.
  destruct (component_sets_class_attributes _ _ _ _ _ _ Hdec)
    as (c & view_func & Hc & Hview & Hclasses & Hroute).
  assert (Hcls : ∀ x, c_class x = cls →
            Comp.class_of (app_classes app') x =
              {| Comp.__name__ := Comp.__name__ c;
                 Comp.view := Comp.view c;
                 Comp._container_id := arg_id args;
                 Comp._url :=
                   Some (os_path_join
                           (or_str (arg_prefix args) (_loader_route_prefix self))
                           (or_str (arg_path args) (Comp.__name__ c)));
                 Comp._class := arg_class_ args;
                 Comp._loader_class := Some (_loader_class self);
                 Comp._preload_content := arg_preload_content args |}).
  { intros x Hx. unfold Comp.class_of.
    by rewrite Hx, Hclasses, lookup_insert_eq. }
  split.
  - exists c. eexists. split; [exact Hc|].
    split; [rewrite Hclasses; apply lookup_insert_eq|].
    rewrite (Hcls a Ha), (Hcls b Hb), Hroute. done.
  - unfold Comp.container_id. rewrite (Hcls a Ha), (Hcls b Hb). simpl.
    split.
    + intros id Hid Htruthy. rewrite Hid. simpl. by rewrite Htruthy.
    + intros Hfalsy.
      assert (Hor : ∀ d, or_str (arg_id args) d = d).
      { intros d. destruct (arg_id args) as [id|]; [|done].
        simpl in *. by rewrite Hfalsy. }
      rewrite !Hor. unfold Comp._id_prefix, Comp.component_id.
      split; [done|]. split; [done|].
      intros Hne Heq. simpl in Heq. apply Hne.
      injection Heq as Heq. by apply (inj pretty).
Qed.

Lemma C9_witness :
  (component demo_html demo_router_with_state args_with_id 1%N app_before
     = inr (or_unchanged app_before
              (component demo_html demo_router_with_state args_with_id 1%N app_before)) ∧
   c_class fragment_a = 1%N ∧ c_class fragment_b = 1%N) ∧
  Comp.container_id
    (app_classes (or_unchanged app_before
       (component demo_html demo_router_with_state args_with_id 1%N app_before)))
    fragment_a = "F1" ∧
  Comp.container_id
    (app_classes (or_unchanged app_before
       (component demo_html demo_router_with_state args_with_id 1%N app_before)))
    fragment_b = "F1".
Proof.
  assert (H : component demo_html demo_router_with_state args_with_id 1%N app_before
              = inr (or_unchanged app_before
                       (component demo_html demo_router_with_state args_with_id
                          1%N app_before)))
    by reflexivity.
  split; [split; [exact H|split; reflexivity]|].
  destruct (C9_configuration_is_stored_on_the_class demo_html
              demo_router_with_state args_with_id 1%N app_before _
              fragment_a fragment_b H eq_refl eq_refl)
    as (_ & Hid & _).
  exact (Hid "F1" eq_refl eq_refl).
Defined.

Lemma register_component_reload_lookup (state_field id : string)
    (fields : gmap string (list string)) :
  ∃ ids, register_component_reload state_field id fields !! state_field = Some ids
         ∧ id ∈ ids.
Proof.
  unfold register_component_reload. case_bool_decide as Hin.
  - eexists. rewrite lookup_insert_eq. done.
  - eexists. rewrite lookup_insert_eq. split; [done|]. set_solver.
Qed.

Lemma register_component_reload_keeps (state_field f id : string)
    (fields : gmap string (list string)) (ids : list string) :
  fields !! f = Some ids → id ∈ ids →
  ∃ ids', register_component_reload state_field id fields !! f = Some ids'
          ∧ id ∈ ids'.
Proof.
  intros Hf Hid. destruct (decide (state_field = f)) as [->|Hne].
  - apply register_component_reload_lookup.
  - exists ids. unfold register_component_reload.
    case_bool_decide; by rewrite lookup_insert_ne.
Qed.

(** Registering a list of fields leaves the id registered on each. *)
Lemma register_all (reload_on : list string) (id : string)
    (fields : gmap string (list string)) (f : string) :
  f ∈ reload_on ∨ (∃ ids, fields !! f = Some ids ∧ id ∈ ids) →
  ∃ ids, foldl (λ fields state_field,
                  register_component_reload state_field id fields)
               fields reload_on !! f = Some ids ∧ id ∈ ids.
Proof.
  revert fields. induction reload_on as [|g rest IH]; intros fields H.
  - destruct H as [H|H]; [by apply elem_of_nil in H|done].
  - simpl. apply IH. destruct H as [H|(ids & Hids & Hin)].
    + apply elem_of_cons in H as [->|H]; [|by left].
      right. apply register_component_reload_lookup.
    + right. by apply (register_component_reload_keeps _ _ _ _ ids).
Qed.

(** C4: decorating with a non-empty [reload_on] fails while the decorator
    runs, before anything is registered (no application state is
    returned, so no route was added and no class attribute set), when no
    (non-empty) id is given or when the router has no [state_schema]; for
    a class with a [view] method the error is the [ValueError] of the
    missing precondition. When both preconditions hold, decoration of such
    a class succeeds and afterwards the component's id is registered on
    every StateField of [reload_on]. *)
Theorem C4_reload_on_needs_id_and_state_schema
    (html : Tag → string) (self : RouterConfig) (args : ComponentArgs)
    (cls : oid) (app : App) (reload_on : list string) :
  arg_reload_on args = Some reload_on → reload_on ≠ [] →
  (truthy_opt (arg_id args) = false ∨ _state_schema self = None →
   ∃ e, component html self args cls app = inl e) ∧
  (∀ c view_func,
     app_classes app !! cls = Some c → Comp.view c = Method view_func →
     (truthy_opt (arg_id args) = false →
      component html self args cls app =
        inl (ValueError "id must be specified if reload_on is used")) ∧
     (truthy_opt (arg_id args) = true → _state_schema self = None →
      component html self args cls app =
        inl (ValueError
               "state_schema must be set on the router if reload_on is used")) ∧
     (truthy_opt (arg_id args) = true → is_Some (_state_schema self) →
      ∃ app', component html self args cls app = inr app')) ∧
  (∀ id app',
     arg_id args = Some id → truthy id = true → is_Some (_state_schema self) →
     component html self args cls app = inr app' →
     length (app_routes app') = S (length (app_routes app)) ∧
     ∀ f, f ∈ reload_on →
       ∃ ids, app_fields app' !! f = Some ids ∧ id ∈ ids).
Proof.
  intros Hreload Hne.
  destruct reload_on as [|f0 rest]; [done|]. clear Hne.
  assert (Hview : ∀ c view_func,
    app_classes app !! cls = Some c → Comp.view c = Method view_func →
    (truthy_opt (arg_id args) = false →
     component html self args cls app =
       inl (ValueError "id must be specified if reload_on is used")) ∧
    (truthy_opt (arg_id args) = true → _state_schema self = None →
     component html self args cls app =
       inl (ValueError
              "state_schema must be set on the router if reload_on is used")) ∧
    (truthy_opt (arg_id args) = true → is_Some (_state_schema self) →
     ∃ app', component html self args cls app = inr app')).
  { intros c view_func Hc Hv. unfold component. rewrite Hc, Hv, Hreload.
    destruct (arg_id args) as [id|]; simpl; [|by repeat split].
    destruct (truthy id); simpl; [|by repeat split].
    split; [done|]. split.
    - intros _ ->. done.
    - intros _ [schema ->]. simpl. eauto. }
  split; [|split; [exact Hview|]].
  - intros Hmissing. unfold component.
    destruct (app_classes app !! cls) as [c|] eqn:Hc; [|eauto].
    destruct (Comp.view c) as [| |view_func] eqn:Hv; [eauto|eauto|].
    rewrite Hreload.
    destruct (arg_id args) as [id|]; simpl in *; [|eauto].
    destruct (truthy id); simpl; [|eauto].
    destruct Hmissing as [?| ->]; [done|]. simpl. eauto.
  - intros id app' Hid Htruthy [schema Hschema]. unfold component.
    destruct (app_classes app !! cls) as [c|]; [|done].
    destruct (Comp.view c) as [| |view_func]; [done|done|].
    rewrite Hreload, Hid, Hschema. rewrite Htruthy.
    cbn [negb]. rewrite bool_decide_eq_true_2 by eauto. cbn [negb].
    intros [= <-]. cbn [app_routes app_fields]. unfold add_api_route.
    split; [by rewrite length_app, Nat.add_comm|].
    intros f Hf.
    apply (register_all (f0 :: rest) id (app_fields app) f). by left.
Qed.

Lemma C4_witness :
  (arg_reload_on args_reload_without_id = Some ["count"] ∧ ["count"] ≠ []) ∧
  (∃ e, component demo_html demo_router_with_state args_reload_without_id
          1%N app_before = inl e) ∧
  (∃ e, component demo_html demo_router args_with_id 1%N app_before = inl e) ∧
  (∃ ids, app_fields
            (or_unchanged app_before
               (component demo_html demo_router_with_state args_with_id 1%N
                  app_before)) !! "count" = Some ids ∧ "F1" ∈ ids).
Proof.
  assert (H1 : arg_reload_on args_reload_without_id = Some ["count"]) by reflexivity.
  assert (H2 : arg_reload_on args_with_id = Some ["count"]) by reflexivity.
  assert (Hne : ["count"] ≠ ([] : list string)) by discriminate.
  split; [done|]. split; [|split].
  - apply (C4_reload_on_needs_id_and_state_schema demo_html demo_router_with_state
             args_reload_without_id 1%N app_before ["count"] H1 Hne).
    left. reflexivity.
  - apply (C4_reload_on_needs_id_and_state_schema demo_html demo_router
             args_with_id 1%N app_before ["count"] H2 Hne).
    right. reflexivity.
  - destruct (C4_reload_on_needs_id_and_state_schema demo_html
                demo_router_with_state args_with_id 1%N app_before ["count"] H2 Hne)
      as (_ & _ & Hok).
    destruct (Hok "F1"
                (or_unchanged app_before
                   (component demo_html demo_router_with_state args_with_id 1%N
                      app_before))
                eq_refl eq_refl (ex_intro _ demo_schema eq_refl) eq_refl)
      as [_ Hfields].
    apply Hfields. apply list_elem_of_here.
Defined.

(** ** The view endpoint *)

(** Once the template (if any) has returned, the endpoint leaves an empty
    buffer behind on both exits of the [try]: with the markup when the
    view returns, with the view's exception when it raises. *)
Lemma endpoint_clears_after_view (html : Tag → string) (template : option (M unit))
    (is_async : bool) (view_func : Callable) (kwargs : gmap string pyval)
    (w w1 : World) :
  (match template with
   | Some template => template
   | None => ret tt
   end) (context.put_root_tags [] w) = (w1, inr tt) →
  ∃ w2 r,
    call view_func kwargs w1 = (w2, r) ∧
    endpoint html template is_async view_func kwargs w =
      (context.put_root_tags [] w2,
       match r with
       | inr _ => inr (String.concat EmptyString (map html (ctx_root_tags (w_ctx w2))))
       | inl e => inl e
       end).
Proof.
  intros Htemplate.
  destruct (call view_func kwargs w1) as [w2 r] eqn:Hview.
  exists w2, r. split; [done|].
  unfold endpoint, bind at 1, context.clear_root_tags at 1.
  unfold bind at 1. rewrite Htemplate.
  unfold try_finally, bind, context.get_root_tags, context.clear_root_tags, ret.
  destruct is_async; rewrite Hview; by destruct r.
Qed.

(** C5 (how the code behaves when the template raises): the template runs
    after the entry clear but before the [try] block, so when it raises
    after emitting markup, the exception leaves the endpoint without the
    [finally] clear and the emitted tags stay in the buffer. *)
Theorem C5_template_exception_skips_exit_clear
    (html : Tag → string) (is_async : bool) (view_func : Callable)
    (kwargs : gmap string pyval) (w : World) (t : Tag) (e : exn) :
  endpoint html (Some (tags.emit t;; throw e)) is_async view_func kwargs w =
    (context.put_root_tags [t] w, inl e) ∧
  ctx_root_tags (w_ctx (endpoint html (Some (tags.emit t;; throw e))
                          is_async view_func kwargs w).1) ≠ [].
Proof. split; [reflexivity|discriminate]. Qed.

(** A view that raises after emitting a tag: the request ends with the
    view's exception and an empty buffer. *)
Example endpoint_failing_view :
  endpoint demo_html None true failing_view ∅ world_one_session =
    (context.put_root_tags [] world_one_session, inl (UserError "boom")).
Proof. vm_compute. reflexivity. Qed.

(** A template that raises after emitting a tag: the request ends with the
    template's exception and the tag still in the buffer. *)
Example endpoint_failing_template :
  ctx_root_tags
    (w_ctx (endpoint demo_html (Some failing_template) true hello_view ∅
              world_one_session).1) =
    [MkTag "meta" None None None None None None []].
Proof. vm_compute. reflexivity. Qed.

(** A view that returns: the markup is the concatenation of the rendered
    root tags, and the buffer is empty afterwards. *)
Example endpoint_hello_view :
  endpoint demo_html None true hello_view ∅ world_one_session =
    (context.put_root_tags [] world_one_session, inr "<p/>").
Proof. vm_compute. reflexivity. Qed.

(** ** Resolving [self] *)

(** C10: for a view method that has a [self] parameter, the served
    callable takes [self] as a keyword-only parameter whose value the
    framework obtains at request time from [load_component_instance]:
    the component registered under the request's [id] query parameter in
    the registry of the ambient session (the registered object itself, or
    [NotFound]); the call is forwarded to the method unchanged. A view
    method without a [self] parameter is returned as it is, so nothing is
    looked up for it. *)
Theorem C10_self_is_resolved_from_the_session_registry (method : Callable) :
  (has_self (parameters method) = false → _replace_self method = method) ∧
  (has_self (parameters method) = true →
   parameters (_replace_self method) =
     filter (λ p, p_name p ≠ "self") (parameters method) ++ [self_dep_param] ∧
   (∀ kwargs, call (_replace_self method) kwargs = call method kwargs) ∧
   ∀ (request : Request) (w : World) id session s,
     req_query request !! "id" = Some id →
     ctx_session (w_ctx w) = Some session →
     w_sessions w !! session = Some s →
     solve_parameter request self_dep_param w =
       (w, match s_components s !! id with
           | Some c => inr (VComponent c)
           | None => inl (NotFound id)
           end)).
Proof.
  unfold _replace_self. split.
  - by intros ->.
  - intros ->. simpl. split; [done|]. split; [done|].
    intros request w id session s Hid Hctx Hs.
    unfold solve_parameter. simpl. rewrite Hid.
    unfold load_component_instance, bind, context.get_session,
      SessionOps.get_component, deref.
    rewrite Hctx. unfold bind, ret, throw. simpl. rewrite Hs. simpl.
    by destruct (s_components s !! id).
Qed.

Lemma C10_witness :
  (has_self (parameters hello_view) = true ∧
   req_query fragment_request !! "id" = Some "4302" ∧
   ctx_session (w_ctx world_after_construction) = Some 0%N) ∧
  solve_parameter fragment_request self_dep_param world_after_construction =
    (world_after_construction, inr (VComponent fragment_a)) ∧
  _replace_self page_view = page_view.
Proof.
  assert (H1 : has_self (parameters hello_view) = true) by reflexivity.
  assert (H2 : req_query fragment_request !! "id" = Some "4302")
    by (vm_compute; reflexivity).
  assert (H3 : ctx_session (w_ctx world_after_construction) = Some 0%N)
    by (vm_compute; reflexivity).
  assert (H4 : w_sessions world_after_construction !! 0%N =
               Some {| s_id := "t-1"; s_state := None;
                       s_components := {[ "4302" := fragment_a ]};
                       s_queue := [] |})
    by (vm_compute; reflexivity).
  split; [done|].
  destruct (C10_self_is_resolved_from_the_session_registry hello_view)
    as [_ Hself].
  destruct (Hself H1) as (_ & _ & Hresolve).
  destruct (C10_self_is_resolved_from_the_session_registry page_view)
    as [Hplain _].
  split; [|exact (Hplain eq_refl)].
  rewrite (Hresolve fragment_request world_after_construction "4302" 0%N _ H2 H3 H4).
  vm_compute. reflexivity.
Defined.

(** * Further properties of the code *)

(** ** The session handshake, continued *)

(** X1: a request that presents a token known to the Store is given the
    session stored under it: no session is created, the heap of sessions
    and the Store stay as they are, the response is not touched, and the
    session is bound to [request.state.session] and to the context. *)
Theorem X1_known_token_resolves_stored_session
    (self : RouterConfig) (new_token : string)
    (request : Request) (response : Response) (w : World)
    (tok : string) (a : oid) :
  store_wf w →
  presented_token self request = Some tok →
  truthy tok = true →
  w_store w !! tok = Some a →
  ∃ w',
    _get_or_create_session self new_token request response w =
      (w', inr (bound_request request a, response, a)) ∧
    w_sessions w' = w_sessions w ∧
    w_store w' = w_store w ∧
    ctx_session (w_ctx w') = Some a ∧
    ctx_root_tags (w_ctx w') = ctx_root_tags (w_ctx w) ∧
    ctx_inputs (w_ctx w') = ctx_inputs (w_ctx w).
Proof.
  intros Hwf Htok Htruthy Hstore.
  destruct (Hwf _ _ Hstore) as (s & Hheap & Hid).
  rewrite (known_path _ new_token _ response _ _ _ _ Htok Htruthy Hstore Hheap).
  rewrite Hid, bool_decide_eq_true_2 by done. simpl.
  eexists. split; [reflexivity|]. done.
Qed.

Lemma X1_witness :
  (store_wf world_one_session ∧
   presented_token demo_router (request_with_cookie "t-1") = Some "t-1" ∧
   truthy "t-1" = true ∧
   w_store world_one_session !! "t-1" = Some 0%N) ∧
  ∃ w',
    _get_or_create_session demo_router "t-2" (request_with_cookie "t-1")
      empty_response world_one_session =
      (w', inr (bound_request (request_with_cookie "t-1") 0%N, empty_response, 0%N)) ∧
    w_sessions w' = w_sessions world_one_session ∧
    w_store w' = w_store world_one_session ∧
    ctx_session (w_ctx w') = Some 0%N ∧
    ctx_root_tags (w_ctx w') = ctx_root_tags (w_ctx world_one_session) ∧
    ctx_inputs (w_ctx w') = ctx_inputs (w_ctx world_one_session).
Proof.
  assert (Hwf : store_wf world_one_session)
    by apply store_wf_get_or_create, store_wf_empty.
  assert (H1 : presented_token demo_router (request_with_cookie "t-1") = Some "t-1")
    by (vm_compute; reflexivity).
  assert (H2 : truthy "t-1" = true) by reflexivity.
  assert (H3 : w_store world_one_session !! "t-1" = Some 0%N)
    by (vm_compute; reflexivity).
  split; [done|].
  exact (X1_known_token_resolves_stored_session demo_router "t-2"
           (request_with_cookie "t-1") empty_response world_one_session
           "t-1" 0%N Hwf H1 H2 H3).
Defined.

(** X2: round trip of the session cookie. When a first request without a
    usable token was given a session under a non-empty token, a later
    request that presents this token (as the first response's cookie
    carries it) gets the very same session, no second session is created
    and no cookie is set again. *)
Theorem X2_cookie_round_trip
    (self : RouterConfig) (new_token other_token : string)
    (request1 request2 : Request) (response1 response2 : Response) (w : World) :
  truthy_opt (presented_token self request1) = false ∨
  (∃ tok, presented_token self request1 = Some tok ∧ w_store w !! tok = None) →
  truthy new_token = true →
  presented_token self request2 = Some new_token →
  ∃ w1 request1' response1' session w2,
    _get_or_create_session self new_token request1 response1 w =
      (w1, inr (request1', response1', session)) ∧
    _get_or_create_session self other_token request2 response2 w1 =
      (w2, inr (bound_request request2 session, response2, session)) ∧
    w_sessions w2 = w_sessions w1 ∧
    w_store w2 = w_store w1.
Proof.
  intros Hfirst Htruthy Hsecond.
  rewrite (create_path self new_token request1 response1 w Hfirst).
  eexists _, _, _, _, _. split; [reflexivity|].
  rewrite (known_path self other_token request2 response2
             (world_with_new_session self new_token w) new_token
             (fresh (dom (w_sessions w))) (new_session self new_token)
             Hsecond Htruthy);
    [|simpl; apply lookup_insert_eq|simpl; apply lookup_insert_eq].
  simpl. rewrite bool_decide_eq_true_2 by done. simpl.
  split; [reflexivity|]. done.
Qed.

Lemma X2_witness :
  ((truthy_opt (presented_token demo_router request_without_cookie) = false ∨
    (∃ tok, presented_token demo_router request_without_cookie = Some tok ∧
            w_store empty_world !! tok = None)) ∧
   truthy "t-1" = true ∧
   presented_token demo_router (request_with_cookie "t-1") = Some "t-1") ∧
  ∃ w1 request1' response1' session w2,
    _get_or_create_session demo_router "t-1" request_without_cookie
      empty_response empty_world =
      (w1, inr (request1', response1', session)) ∧
    _get_or_create_session demo_router "t-2" (request_with_cookie "t-1")
      empty_response w1 =
      (w2, inr (bound_request (request_with_cookie "t-1") session,
                empty_response, session)) ∧
    w_sessions w2 = w_sessions w1 ∧
    w_store w2 = w_store w1.
Proof.
  assert (H1 : truthy_opt (presented_token demo_router request_without_cookie) = false ∨
               (∃ tok, presented_token demo_router request_without_cookie = Some tok ∧
                       w_store empty_world !! tok = None))
    by (left; vm_compute; reflexivity).
  assert (H2 : truthy "t-1" = true) by reflexivity.
  assert (H3 : presented_token demo_router (request_with_cookie "t-1") = Some "t-1")
    by (vm_compute; reflexivity).
  split; [done|].
  exact (X2_cookie_round_trip demo_router "t-1" "t-2" request_without_cookie
           (request_with_cookie "t-1") empty_response empty_response empty_world
           H1 H2 H3).
Defined.

(** X3: the handshake keeps the Store consistent: if every token of the
    Store referred to a live session carrying that token as its id before
    the call, this still holds after it, whichever branch was taken. *)
Theorem X3_handshake_keeps_store_consistent
    (self : RouterConfig) (new_token : string)
    (request : Request) (response : Response) (w : World) :
  store_wf w →
  store_wf (_get_or_create_session self new_token request response w).1.
Proof. apply store_wf_get_or_create. Qed.

Lemma X3_witness :
  store_wf empty_world ∧
  store_wf (_get_or_create_session demo_router "t-1" request_without_cookie
              empty_response empty_world).1.
Proof.
  split; [exact store_wf_empty|].
  exact (X3_handshake_keeps_store_consistent demo_router "t-1"
           request_without_cookie empty_response empty_world store_wf_empty).
Defined.

(** ** The push dispatcher, continued *)

Lemma run_disconnected (schedule : list event) (g : Stream) :
  es_disconnected g = true → es_disconnected (run schedule g) = true.
Proof.
  revert g. induction schedule as [|e schedule IH]; intros g Hd; [done|].
  apply (IH (step g e)), step_disconnected, Hd.
Qed.

(** X4: the disconnect poll sits only at the top of the loop, so once the
    client is gone the dispatcher emits at most one more frame, whatever
    is pushed onto the channel afterwards: the frame of the identifier it
    was already waiting for; a dispatcher that was not inside its [await]
    emits none. *)
Theorem X4_at_most_one_frame_after_disconnect
    (schedule : list event) (g : Stream) :
  es_disconnected g = true →
  (es_pc g ≠ AtAwait → es_emitted (run schedule g) = es_emitted g) ∧
  (es_emitted (run schedule g) = es_emitted g ∨
   ∃ component_id,
     es_emitted (run schedule g) = es_emitted g ++ [sse_frame component_id]).
Proof.
  intros Hd. split; [by apply silent_after_disconnect|].
  destruct (es_pc g) eqn:Hpc.
  - left. apply silent_after_disconnect; [done|]. by rewrite Hpc.
  - by apply one_frame_in_flight.
  - left. apply silent_after_disconnect; [done|]. by rewrite Hpc.
Qed.

Lemma X4_witness :
  es_disconnected (run [Resume; ClientDisconnect] opened_stream) = true ∧
  (es_emitted (run [Resume; Enqueue 0%N "F9"; Resume; Resume; Resume]
                 (run [Resume; ClientDisconnect] opened_stream))
     = es_emitted (run [Resume; ClientDisconnect] opened_stream) ∨
   ∃ component_id,
     es_emitted (run [Resume; Enqueue 0%N "F9"; Resume; Resume; Resume]
                   (run [Resume; ClientDisconnect] opened_stream))
       = es_emitted (run [Resume; ClientDisconnect] opened_stream)
           ++ [sse_frame component_id]).
Proof.
  assert (H : es_disconnected (run [Resume; ClientDisconnect] opened_stream) = true)
    by (vm_compute; reflexivity).
  split; [exact H|].
  exact (proj2 (X4_at_most_one_frame_after_disconnect
                  [Resume; Enqueue 0%N "F9"; Resume; Resume; Resume]
                  (run [Resume; ClientDisconnect] opened_stream) H)).
Defined.

Lemma get_updated_component_id_frame (session : oid) (w w' : World) (c : string) :
  get_updated_component_id session w = Some (w', c) →
  w_store w' = w_store w ∧ w_ctx w' = w_ctx w ∧
  ∀ a, a ≠ session → w_sessions w' !! a = w_sessions w !! a.
Proof.
  unfold get_updated_component_id.
  destruct (w_sessions w !! session) as [s|]; [|done].
  destruct (s_queue s); [done|].
  intros [= <- _]. simpl. split; [done|]. split; [done|].
  intros a Ha. by rewrite lookup_insert_ne.
Qed.

Lemma step_store_other (g : Stream) (e : event) (tok : string) :
  tok ≠ es_sid g →
  w_store (es_world (step g e)) !! tok = w_store (es_world g) !! tok.
Proof.
  intros Hne. destruct e as [| |a c]; simpl; [|done|by rewrite push_store].
  unfold resume. destruct (es_pc g); [| |done].
  - destruct (es_disconnected g); [|done]. simpl. by rewrite lookup_delete_ne.
  - destruct (get_updated_component_id (es_session g) (es_world g))
      as [[w' c]|] eqn:Hget; [|done].
    simpl. by destruct (get_updated_component_id_frame _ _ _ _ Hget) as (-> & _).
Qed.

(** X5: a dispatcher only ever deletes its own token and only ever takes
    from its own channel: over any schedule every other Store entry is
    what it was, and a resumption leaves every other Session object and
    the ambient context unchanged. *)
Theorem X5_dispatcher_touches_only_its_own_session
    (schedule : list event) (g : Stream) (tok : string) (a : oid) :
  tok ≠ es_sid g → a ≠ es_session g →
  w_store (es_world (run schedule g)) !! tok = w_store (es_world g) !! tok ∧
  w_sessions (es_world (resume g)) !! a = w_sessions (es_world g) !! a ∧
  w_ctx (es_world (resume g)) = w_ctx (es_world g).
Proof.
  intros Htok Ha. split.
  - revert g Htok Ha. induction schedule as [|e schedule IH]; intros g Htok Ha; [done|].
    change (run (e :: schedule) g) with (run schedule (step g e)).
    destruct (step_locals g e) as [Hsid Hsession].
    rewrite IH; [by apply step_store_other|by rewrite Hsid|by rewrite Hsession].
  - unfold resume. destruct (es_pc g); [| |done].
    + by destruct (es_disconnected g).
    + destruct (get_updated_component_id (es_session g) (es_world g))
        as [[w' c]|] eqn:Hget; [|done].
      simpl. destruct (get_updated_component_id_frame _ _ _ _ Hget) as (_ & -> & Hheap).
      split; [by apply Hheap|done].
Qed.

Lemma X5_witness :
  ("t-2" ≠ es_sid stream_of_first_session ∧
   1%N ≠ es_session (run [Resume] stream_of_first_session)) ∧
  (w_store (es_world stream_of_first_session) !! "t-2" = Some 1%N ∧
   w_store (es_world (run [Resume; ClientDisconnect; Resume; Resume]
                          stream_of_first_session)) !! "t-2" = Some 1%N ∧
   w_store (es_world (run [Resume; ClientDisconnect; Resume; Resume]
                          stream_of_first_session)) !! "t-1" = None) ∧
  (es_emitted (resume (run [Resume] stream_of_first_session)) = [sse_frame "F1"] ∧
   w_sessions (es_world (resume (run [Resume] stream_of_first_session))) !! 1%N =
     Some (new_session demo_router "t-2") ∧
   w_ctx (es_world (resume (run [Resume] stream_of_first_session))) =
     w_ctx world_two_sessions).
Proof.
  assert (H1 : "t-2" ≠ es_sid stream_of_first_session) by discriminate.
  assert (H1' : "t-2" ≠ es_sid (run [Resume] stream_of_first_session))
    by discriminate.
  assert (H2 : 1%N ≠ es_session stream_of_first_session) by discriminate.
  assert (H2' : 1%N ≠ es_session (run [Resume] stream_of_first_session))
    by discriminate.
  split; [done|].
  destruct (X5_dispatcher_touches_only_its_own_session
              [Resume; ClientDisconnect; Resume; Resume] stream_of_first_session
              "t-2" 1%N H1 H2) as (Hstore & _).
  destruct (X5_dispatcher_touches_only_its_own_session
              [] (run [Resume] stream_of_first_session)
              "t-2" 1%N H1' H2') as (_ & Hheap & Hctx).
  split; [|split; [|split]].
  - rewrite Hstore. split; [vm_compute; reflexivity|].
    split; vm_compute; reflexivity.
  - vm_compute. reflexivity.
  - rewrite Hheap. vm_compute. reflexivity.
  - rewrite Hctx. vm_compute. reflexivity.
Defined.

(** X6: as long as the client has not gone away the dispatcher neither
    terminates nor evicts: if the client is still connected at the end of
    a schedule, the Store is exactly what it was at the start and a
    dispatcher that was running is still running. *)
Theorem X6_no_eviction_while_connected (schedule : list event) (g : Stream) :
  es_disconnected (run schedule g) = false →
  es_pc g ≠ Finished →
  w_store (es_world (run schedule g)) = w_store (es_world g) ∧
  es_pc (run schedule g) ≠ Finished.
Proof.
  revert g. induction schedule as [|e schedule IH]; intros g Hd Hpc; [done|].
  change (run (e :: schedule) g) with (run schedule (step g e)) in *.
  assert (Hd' : es_disconnected (step g e) = false).
  { destruct (es_disconnected (step g e)) eqn:Hstep; [|done].
    by rewrite (run_disconnected schedule _ Hstep) in Hd. }
  assert (Hstep : w_store (es_world (step g e)) = w_store (es_world g) ∧
                  es_pc (step g e) ≠ Finished).
  { destruct e as [| |a c]; simpl in *; [|done|by rewrite push_store].
    unfold resume in *. destruct (es_pc g) eqn:Hg; [| |done].
    - destruct (es_disconnected g); simpl in *; [done|]. done.
    - destruct (get_updated_component_id (es_session g) (es_world g))
        as [[w' c]|] eqn:Hget; [|by rewrite Hg].
      simpl. by destruct (get_updated_component_id_frame _ _ _ _ Hget) as (-> & _). }
  destruct Hstep as [Hstore Hpc'].
  destruct (IH _ Hd Hpc') as [-> Hfin]. done.
Qed.

Lemma X6_witness :
  (es_disconnected (run [Resume; Resume; Enqueue 0%N "F9"; Resume; Resume]
                        opened_stream) = false ∧
   es_pc opened_stream ≠ Finished) ∧
  w_store (es_world (run [Resume; Resume; Enqueue 0%N "F9"; Resume; Resume]
                         opened_stream)) = w_store (es_world opened_stream).
Proof.
  assert (H1 : es_disconnected (run [Resume; Resume; Enqueue 0%N "F9"; Resume; Resume]
                                    opened_stream) = false)
    by (vm_compute; reflexivity).
  assert (H2 : es_pc opened_stream ≠ Finished) by discriminate.
  split; [done|].
  exact (proj1 (X6_no_eviction_while_connected
                  [Resume; Resume; Enqueue 0%N "F9"; Resume; Resume]
                  opened_stream H1 H2)).
Defined.

(** One full iteration of a connected dispatcher whose channel is not
    empty. *)
Lemma one_iteration (g : Stream) (s : Session) (x : string) (rest : list string) :
  es_pc g = AtCheck → es_disconnected g = false →
  w_sessions (es_world g) !! es_session g = Some s →
  s_queue s = x :: rest →
  es_pc (run [Resume; Resume] g) = AtCheck ∧
  es_disconnected (run [Resume; Resume] g) = false ∧
  es_emitted (run [Resume; Resume] g) = es_emitted g ++ [sse_frame x] ∧
  channel (run [Resume; Resume] g) = rest ∧
  w_store (es_world (run [Resume; Resume] g)) = w_store (es_world g).
Proof.
  intros Hpc Hd Hs Hq.
  change (run [Resume; Resume] g) with (resume (resume g)).
  destruct (resume_connected g Hpc Hd) as (Hpc1 & Hw1 & He1 & _).
  destruct (step_locals g Resume) as [_ Hses1]. simpl in Hses1.
  assert (Hd1 : es_disconnected (resume g) = false)
    by (unfold resume; by rewrite Hpc, Hd).
  remember (resume g) as g1 eqn:Hg1. clear Hg1.
  unfold resume. rewrite Hpc1. unfold get_updated_component_id.
  rewrite Hses1, Hw1, Hs, Hq. unfold channel. simpl.
  rewrite lookup_insert_eq, Hd1, He1. done.
Qed.

(** X7: a connected dispatcher delivers its whole channel: with [n]
    identifiers queued, [2 n] resumptions (poll, then take and yield)
    emit the frames of all of them in queue order, leave the channel
    empty and the dispatcher at the top of its loop, and do not touch the
    Store. *)
Theorem X7_connected_dispatcher_drains_channel
    (q : list string) (g : Stream) :
  es_pc g = AtCheck → es_disconnected g = false → channel g = q →
  es_emitted (run (repeat Resume (length q * 2)) g) =
    es_emitted g ++ map sse_frame q ∧
  channel (run (repeat Resume (length q * 2)) g) = [] ∧
  es_pc (run (repeat Resume (length q * 2)) g) = AtCheck ∧
  w_store (es_world (run (repeat Resume (length q * 2)) g)) = w_store (es_world g).
Proof.
  revert g. induction q as [|x rest IH]; intros g Hpc Hd Hq.
  - simpl. by rewrite app_nil_r.
  - assert (Hs : ∃ s, w_sessions (es_world g) !! es_session g = Some s ∧
                      s_queue s = x :: rest).
    { unfold channel in Hq.
      destruct (w_sessions (es_world g) !! es_session g) as [s|]; [eauto|done]. }
    destruct Hs as (s & Hs & Hqs).
    destruct (one_iteration g s x rest Hpc Hd Hs Hqs)
      as (Hpc' & Hd' & He & Hc & Hst).
    change (repeat Resume (length (x :: rest) * 2))
      with ([Resume; Resume] ++ repeat Resume (length rest * 2)).
    rewrite run_app.
    destruct (IH _ Hpc' Hd' Hc) as (-> & -> & -> & ->).
    rewrite He, Hst, <- app_assoc. done.
Qed.

Lemma X7_witness :
  (es_pc opened_stream = AtCheck ∧ es_disconnected opened_stream = false ∧
   channel opened_stream = ["F1"; "F3"]) ∧
  es_emitted (run (repeat Resume (length ["F1"; "F3"] * 2)) opened_stream) =
    es_emitted opened_stream ++ map sse_frame ["F1"; "F3"].
Proof.
  assert (H : channel opened_stream = ["F1"; "F3"]) by (vm_compute; reflexivity).
  split; [done|].
  exact (proj1 (X7_connected_dispatcher_drains_channel ["F1"; "F3"] opened_stream
                  eq_refl eq_refl H)).
Defined.

(** A dispatcher inside its [await] on an empty channel: without a
    producer no resumption changes anything. *)
Lemma waiting_on_empty_channel (schedule : list event) (g : Stream) :
  es_pc g = AtAwait → channel g = [] → no_producer schedule →
  es_world (run schedule g) = es_world g ∧
  es_pc (run schedule g) = AtAwait ∧
  es_emitted (run schedule g) = es_emitted g.
Proof.
  revert g. induction schedule as [|e schedule IH]; intros g Hpc Hq Hsch; [done|].
  apply Forall_cons in Hsch as [He Hsch].
  change (run (e :: schedule) g) with (run schedule (step g e)).
  assert (Hstep : es_world (step g e) = es_world g ∧ es_pc (step g e) = AtAwait ∧
                  es_emitted (step g e) = es_emitted g ∧ channel (step g e) = []).
  { destruct He as [-> | ->]; simpl; [|done].
    unfold resume. rewrite Hpc.
    assert (Hnone : get_updated_component_id (es_session g) (es_world g) = None).
    { unfold get_updated_component_id. unfold channel in Hq.
      destruct (w_sessions (es_world g) !! es_session g) as [s|]; [|done].
      by rewrite Hq. }
    by rewrite Hnone. }
  destruct Hstep as (Hw & Hpc' & Hem & Hq').
  destruct (IH _ Hpc' Hq' Hsch) as (-> & -> & ->). done.
Qed.

(** X8: a dispatcher that waits on an empty channel never evicts. As long
    as nobody pushes an identifier, no resumption of it emits a frame or
    changes the world: the session is not removed from the Store, also
    after the client has disconnected, because the disconnect poll is not
    reached while the [await] has nothing to return. *)
Theorem X8_no_eviction_while_waiting_on_empty_channel
    (schedule : list event) (g : Stream) :
  es_pc g = AtAwait → channel g = [] → no_producer schedule →
  es_world (run schedule g) = es_world g ∧
  es_emitted (run schedule g) = es_emitted g.
Proof.
  intros Hpc Hq Hsch.
  destruct (waiting_on_empty_channel schedule g Hpc Hq Hsch) as (Hw & _ & He).
  done.
Qed.

Lemma X8_witness :
  (es_pc waiting_stream = AtAwait ∧ channel waiting_stream = [] ∧
   no_producer [Resume; ClientDisconnect; Resume; Resume]) ∧
  w_store (es_world (run [Resume; ClientDisconnect; Resume; Resume] waiting_stream))
    !! "t-1" = Some 0%N ∧
  es_disconnected (run [Resume; ClientDisconnect; Resume; Resume] waiting_stream)
    = true.
Proof.
  assert (H1 : channel waiting_stream = []) by (vm_compute; reflexivity).
  assert (H2 : no_producer [Resume; ClientDisconnect; Resume; Resume])
    by (repeat constructor; auto).
  split; [done|].
  destruct (X8_no_eviction_while_waiting_on_empty_channel
              [Resume; ClientDisconnect; Resume; Resume] waiting_stream
              eq_refl H1 H2) as (-> & _).
  split; vm_compute; reflexivity.
Defined.

(** ** Manual reload, continued *)

(** X9: for a session that has a State, [reload] appends the component's
    container id to the end of the ambient session's channel and changes
    nothing else: the session keeps its id, State and registry, every
    other session, the Store and the context are untouched. *)
Theorem X9_reload_pushes_own_container_id
    (classes : gmap oid Comp.ClassObj) (self : Component)
    (w : World) (session : oid) (s : Session) (st : State) :
  ctx_session (w_ctx w) = Some session →
  w_sessions w !! session = Some s →
  s_state s = Some st →
  ∃ w' s',
    Comp.reload classes self w = (w', inr tt) ∧
    w_sessions w' !! session = Some s' ∧
    s_queue s' = s_queue s ++ [Comp.container_id classes self] ∧
    s_id s' = s_id s ∧ s_state s' = s_state s ∧
    s_components s' = s_components s ∧
    (∀ a, a ≠ session → w_sessions w' !! a = w_sessions w !! a) ∧
    w_store w' = w_store w ∧ w_ctx w' = w_ctx w.
Proof.
  intros Hctx Hs Hst.
  rewrite (reload_with_state classes self w session s st Hctx Hs Hst).
  eexists _, _. split; [reflexivity|]. simpl.
  split; [apply lookup_insert_eq|]. simpl.
  do 4 (split; [done|]).
  split; [|done]. intros a Ha. by rewrite lookup_insert_ne.
Qed.

Lemma X9_witness :
  (ctx_session (w_ctx world_with_state) = Some 0%N ∧
   w_sessions world_with_state !! 0%N =
     Some (new_session demo_router_with_state "t-1") ∧
   s_state (new_session demo_router_with_state "t-1") =
     Some (schema_new demo_schema)) ∧
  ∃ w' s',
    Comp.reload (app_classes app_decorated) fragment_a world_with_state =
      (w', inr tt) ∧
    w_sessions w' !! 0%N = Some s' ∧
    s_queue s' = ["F1"].
Proof.
  assert (H1 : ctx_session (w_ctx world_with_state) = Some 0%N)
    by (vm_compute; reflexivity).
  assert (H2 : w_sessions world_with_state !! 0%N =
               Some (new_session demo_router_with_state "t-1"))
    by (vm_compute; reflexivity).
  assert (H3 : s_state (new_session demo_router_with_state "t-1") =
               Some (schema_new demo_schema)) by reflexivity.
  split; [done|].
  destruct (X9_reload_pushes_own_container_id (app_classes app_decorated)
              fragment_a world_with_state 0%N _ _ H1 H2 H3)
    as (w' & s' & Hr & Hs' & Hq & _).
  exists w', s'. split; [exact Hr|]. split; [exact Hs'|].
  rewrite Hq. vm_compute. reflexivity.
Defined.

(** X10: a manual reload reaches the browser as the event its container
    listens for. When a component of a session with a State calls
    [reload] while the session's connected dispatcher is at the top of
    its loop with an empty channel, the next two resumptions emit exactly
    one more frame, [event: <container_id>], whose event name is the one
    the container's trigger [sse:<container_id>] names. *)
Theorem X10_reload_is_delivered_as_container_event
    (classes : gmap oid Comp.ClassObj) (self : Component)
    (g : Stream) (s : Session) (st : State) :
  es_pc g = AtCheck → es_disconnected g = false →
  ctx_session (w_ctx (es_world g)) = Some (es_session g) →
  w_sessions (es_world g) !! es_session g = Some s →
  s_state s = Some st → s_queue s = [] →
  es_emitted (reload_then_deliver classes self g) =
    es_emitted g ++ [sse_frame (Comp.container_id classes self)] ∧
  channel (reload_then_deliver classes self g) = [] ∧
  hx_trigger (Comp.container_htmx
                (fmt_opt (Comp._url (Comp.class_of classes self))
                   +:+ "?id=" +:+ Comp.component_id self)
                (Comp.container_id classes self)) =
    Some ("load, " +:+ Comp.container_id classes self
            +:+ ", sse:" +:+ Comp.container_id classes self).
Proof.
  intros Hpc Hd Hctx Hs Hst Hq. unfold reload_then_deliver.
  rewrite (reload_with_state classes self _ _ s st Hctx Hs Hst). simpl fst.
  match goal with
  | |- context [run [Resume; Resume] ?g1] =>
      destruct (one_iteration g1
                  {| s_id := s_id s; s_state := s_state s;
                     s_components := s_components s;
                     s_queue := s_queue s ++ [Comp.container_id classes self] |}
                  (Comp.container_id classes self) [])
        as (_ & _ & He & Hc & _);
        [done|done|simpl; apply lookup_insert_eq|simpl; by rewrite Hq|]
  end.
  rewrite He, Hc. done.
Qed.

Lemma X10_witness :
  (es_pc stream_with_state = AtCheck ∧
   es_disconnected stream_with_state = false ∧
   ctx_session (w_ctx (es_world stream_with_state)) = Some (es_session stream_with_state) ∧
   w_sessions (es_world stream_with_state) !! es_session stream_with_state =
     Some (new_session demo_router_with_state "t-1") ∧
   s_state (new_session demo_router_with_state "t-1") = Some (schema_new demo_schema) ∧
   s_queue (new_session demo_router_with_state "t-1") = []) ∧
  es_emitted (reload_then_deliver (app_classes app_decorated) fragment_a
                stream_with_state) = [sse_frame "F1"].
Proof.
  assert (H3 : ctx_session (w_ctx (es_world stream_with_state)) =
               Some (es_session stream_with_state)) by (vm_compute; reflexivity).
  assert (H4 : w_sessions (es_world stream_with_state) !! es_session stream_with_state =
               Some (new_session demo_router_with_state "t-1"))
    by (vm_compute; reflexivity).
  split; [done|].
  destruct (X10_reload_is_delivered_as_container_event (app_classes app_decorated)
              fragment_a stream_with_state _ _ eq_refl eq_refl H3 H4 eq_refl eq_refl)
    as (He & _ & _).
  rewrite He. vm_compute. reflexivity.
Defined.

(** ** The view endpoint, continued *)

(** X11: once the template (if there is one) has returned, the endpoint
    always leaves an empty buffer behind. When the view returns, the
    response is the concatenation of [tag.html()] over the root tags the
    template and the view left in the buffer; when the view raises, its
    exception is the outcome of the request. Markup that was in the
    buffer before the request never reaches the response: the endpoint
    behaves the same whatever the buffer held on entry. *)
Theorem X11_endpoint_clears_buffer_after_view
    (html : Tag → string) (template : option (M unit))
    (is_async : bool) (view_func : Callable) (kwargs : gmap string pyval)
    (w w1 : World) :
  (match template with
   | Some template => template
   | None => ret tt
   end) (context.put_root_tags [] w) = (w1, inr tt) →
  (∃ w2 r,
     call view_func kwargs w1 = (w2, r) ∧
     ctx_root_tags (w_ctx (endpoint html template is_async view_func kwargs w).1) = [] ∧
     (endpoint html template is_async view_func kwargs w).2 =
       match r with
       | inr _ => inr (String.concat EmptyString (map html (ctx_root_tags (w_ctx w2))))
       | inl e => inl e
       end) ∧
  (∀ stale,
     endpoint html template is_async view_func kwargs (context.put_root_tags stale w) =
     endpoint html template is_async view_func kwargs w).
Proof.
  intros Htemplate. split; [|done].
  destruct (endpoint_clears_after_view html template is_async view_func kwargs
              w w1 Htemplate) as (w2 & r & Hview & ->).
  exists w2, r. done.
Qed.

Lemma X11_witness :
  banner_template (context.put_root_tags [] world_one_session) =
    ((banner_template (context.put_root_tags [] world_one_session)).1, inr tt) ∧
  ctx_root_tags
    (w_ctx (endpoint demo_html (Some banner_template) true failing_view ∅
              world_one_session).1) = [] ∧
  (endpoint demo_html (Some banner_template) true hello_view ∅
     world_one_session).2 = inr "<nav/><p/>".
Proof.
  assert (H : banner_template (context.put_root_tags [] world_one_session) =
              ((banner_template (context.put_root_tags [] world_one_session)).1, inr tt))
    by reflexivity.
  split; [exact H|]. split.
  - destruct (X11_endpoint_clears_buffer_after_view demo_html (Some banner_template)
                true failing_view ∅ world_one_session _ H)
      as [(w2 & r & _ & Hclear & _) _].
    exact Hclear.
  - destruct (X11_endpoint_clears_buffer_after_view demo_html (Some banner_template)
                true hello_view ∅ world_one_session _ H)
      as [(w2 & r & Hview & _ & Hout) _].
    rewrite Hout. vm_compute in Hview. injection Hview as <- <-.
    vm_compute. reflexivity.
Defined.

(** ** The component decorator, continued *)

(** X12: a [path] that starts with a slash is the fragment url as it is:
    [os.path.join] drops what comes before it, whether that is the
    decorator's [prefix] argument or the router's loader prefix. The
    class's [_url] is that path, and the route is registered at the
    router's own prefix followed by that path. *)
Theorem X12_absolute_path_replaces_prefix
    (html : Tag → string) (self : RouterConfig) (args : ComponentArgs)
    (cls : oid) (app app' : App) (path : string) :
  arg_path args = Some path → startswith_slash path = true →
  component html self args cls app = inr app' →
  route_path <$> last (app_routes app') = Some (prefix self +:+ path) ∧
  Comp._url <$> (app_classes app' !! cls) = Some (Some path).
Proof.
  intros Hpath Hslash Hdec.
  destruct (component_sets_class_attributes _ _ _ _ _ _ Hdec)
    as (c & view_func & _ & _ & Hclasses & Hroute).
  assert (Hurl : os_path_join (or_str (arg_prefix args) (_loader_route_prefix self))
                   (or_str (arg_path args) (Comp.__name__ c)) = path).
  { rewrite Hpath. unfold or_str.
    assert (Htruthy : truthy path = true) by (by destruct path).
    rewrite Htruthy. unfold os_path_join. by rewrite Hslash. }
  rewrite Hroute, Hclasses, lookup_insert_eq, Hurl. done.
Qed.

Lemma X12_witness :
  (arg_path args_absolute_path = Some "/widgets/counter" ∧
   startswith_slash "/widgets/counter" = true ∧
   component demo_html prefixed_router args_absolute_path 1%N app_prefixed =
     inr (or_unchanged app_prefixed
            (component demo_html prefixed_router args_absolute_path 1%N
               app_prefixed))) ∧
  route_path <$> last (app_routes
    (or_unchanged app_prefixed
       (component demo_html prefixed_router args_absolute_path 1%N app_prefixed)))
  = Some "/app/widgets/counter" ∧
  Comp._url <$> (app_classes
    (or_unchanged app_prefixed
       (component demo_html prefixed_router args_absolute_path 1%N app_prefixed))
    !! 1%N) = Some (Some "/widgets/counter").
Proof.
  assert (H : component demo_html prefixed_router args_absolute_path 1%N app_prefixed =
              inr (or_unchanged app_prefixed
                     (component demo_html prefixed_router args_absolute_path 1%N
                        app_prefixed))) by reflexivity.
  split; [done|].
  exact (X12_absolute_path_replaces_prefix demo_html prefixed_router
           args_absolute_path 1%N app_prefixed _ "/widgets/counter"
           eq_refl eq_refl H).
Defined.



(** ** Pages *)


(** ** Resolving [self], continued *)

Lemma filter_not_self_app (ps : list Param) :
  filter (λ p, p_name p ≠ "self") (ps ++ [self_dep_param]) =
  filter (λ p, p_name p ≠ "self") ps.
Proof.
  rewrite filter_app. rewrite (filter_cons_False _ self_dep_param); [|by intros H].
  by rewrite filter_nil, app_nil_r.
Qed.

Lemma has_self_app (ps : list Param) : has_self (ps ++ [self_dep_param]) = true.
Proof.
  unfold has_self. rewrite existsb_app. simpl. by rewrite orb_true_r.
Qed.

(** X15: [_replace_self] is idempotent, and it never drops or reorders a
    parameter other than [self]: applying it to its own result changes
    nothing, and the parameters that are not named [self] are those of
    the method, in the same order. *)
Theorem X15_replace_self_is_idempotent (method : Callable) :
  _replace_self (_replace_self method) = _replace_self method ∧
  filter (λ p, p_name p ≠ "self") (parameters (_replace_self method)) =
    filter (λ p, p_name p ≠ "self") (parameters method).
Proof.
  unfold _replace_self at 2 3 4.
  destruct (has_self (parameters method)) eqn:Hself; simpl.
  - split.
    + unfold _replace_self. simpl. rewrite has_self_app. simpl.
      rewrite filter_not_self_app.
      rewrite (list_filter_filter_l (λ p, p_name p ≠ "self") (λ p, p_name p ≠ "self"));
        done.
    + rewrite filter_not_self_app.
      rewrite (list_filter_filter_l (λ p, p_name p ≠ "self") (λ p, p_name p ≠ "self"));
        done.
  - split; [|done]. unfold _replace_self. by rewrite Hself.
Qed.

(** ** Components, continued *)

(** X16: a container id is never the empty string: an empty explicit id
    falls back to the generated one, which starts with ["cid_"]. So the
    [id] attribute of the container and the selector ["#" + container_id]
    always name something. *)
Theorem X16_container_id_is_never_empty
    (classes : gmap oid Comp.ClassObj) (self : Component) :
  truthy (Comp.container_id classes self) = true.
Proof.
  unfold Comp.container_id, or_str.
  destruct (Comp._container_id (Comp.class_of classes self)) as [id|]; [|done].
  by destruct (truthy id) eqn:Hid.
Qed.

(** X17: constructing an instance of a class that was never decorated
    fails with a [TypeError] (its loader class is [None]), and it fails
    late: the instance has already been added to the ambient session's
    registry under its component id, while no container is emitted and
    the buffer is as it was. *)
Theorem X17_undecorated_class_fails_after_registration
    (classes : gmap oid Comp.ClassObj) (self : Component)
    (w : World) (session : oid) (s : Session) :
  ctx_session (w_ctx w) = Some session →
  w_sessions w !! session = Some s →
  Comp._loader_class (Comp.class_of classes self) = None →
  ∃ w' s',
    Comp.model_post_init classes self w =
      (w', inl (TypeError "unsupported operand type(s) for +: 'NoneType' and 'str'")) ∧
    w_sessions w' !! session = Some s' ∧
    s_components s' !! Comp.component_id self = Some self ∧
    s_queue s' = s_queue s ∧
    ctx_root_tags (w_ctx w') = ctx_root_tags (w_ctx w) ∧
    w_store w' = w_store w.
Proof.
  intros Hctx Hs Hloader.
  unfold Comp.model_post_init, bind, context.get_session,
    SessionOps.add_component, update_session, context.set_session.
  rewrite Hctx. simpl. rewrite Hs. simpl. rewrite Hloader.
  eexists _, _. split; [reflexivity|]. simpl.
  split; [apply lookup_insert_eq|]. simpl.
  split; [apply lookup_insert_eq|]. done.
Qed.

Lemma X17_witness :
  (ctx_session (w_ctx world_one_session) = Some 0%N ∧
   w_sessions world_one_session !! 0%N = Some (new_session demo_router "t-1") ∧
   Comp._loader_class (Comp.class_of (app_classes app_before) undecorated_fragment)
     = None) ∧
  ∃ w' s',
    Comp.model_post_init (app_classes app_before) undecorated_fragment
      world_one_session =
      (w', inl (TypeError "unsupported operand type(s) for +: 'NoneType' and 'str'")) ∧
    w_sessions w' !! 0%N = Some s' ∧
    s_components s' !! "5000" = Some undecorated_fragment.
Proof.
  assert (H1 : ctx_session (w_ctx world_one_session) = Some 0%N)
    by (vm_compute; reflexivity).
  assert (H2 : w_sessions world_one_session !! 0%N =
               Some (new_session demo_router "t-1")) by (vm_compute; reflexivity).
  assert (H3 : Comp._loader_class
                 (Comp.class_of (app_classes app_before) undecorated_fragment) = None)
    by (vm_compute; reflexivity).
  split; [done|].
  destruct (X17_undecorated_class_fails_after_registration (app_classes app_before)
              undecorated_fragment world_one_session 0%N _ H1 H2 H3)
    as (w' & s' & Hr & Hs' & Hreg & _).
  exists w', s'. split; [exact Hr|]. split; [exact Hs'|]. exact Hreg.
Defined.

(** ** Building the router *)

Example str_replace_all :
  str_replace demo_script "__componentLoader__" "ld" = "htmx.findAll('.ld'); // ld".
Proof. vm_compute. reflexivity. Qed.

Example str_replace_no_overlap : str_replace "aaa" "aa" "b" = "ba".
Proof. vm_compute. reflexivity. Qed.

Example str_replace_empty_old : str_replace "ab" EmptyString "-" = "-a-b-".
Proof. vm_compute. reflexivity. Qed.

Lemma prefix_drop (p s : string) :
  String.prefix p s = true → p +:+ string_drop (String.length p) s = s.
Proof.
  revert s. induction p as [|c p IH]; intros s; [done|].
  destruct s as [|d s]; [done|]. simpl.
  destruct (Ascii.ascii_dec c d) as [->|]; [|done].
  intros H.
  change (String d (p +:+ string_drop (String.length p) s) = String d s).
  f_equal. by apply IH.
Qed.

Lemma replace_from_same (d : ascii) (old : string) (skip : nat) (s : string) :
  replace_from (String d old) (String d old) skip s = string_drop skip s.
Proof.
  revert skip. induction s as [|c rest IH]; intros skip; [by destruct skip|].
  destruct skip as [|k]; [|apply IH].
  cbn [replace_from string_drop].
  destruct (String.prefix (String d old) (String c rest)) eqn:Hprefix;
    [|by rewrite IH].
  rewrite IH.
  simpl in Hprefix. destruct (Ascii.ascii_dec d c) as [->|]; [|done].
  cbn [String.length]. rewrite Nat.sub_succ, Nat.sub_0_r.
  change (String c (old +:+ string_drop (String.length old) rest) = String c rest).
  f_equal. by apply prefix_drop.
Qed.

Lemma replace_empty_same (s : string) : replace_empty EmptyString s = s.
Proof. induction s as [|c rest IH]; [done|]. simpl. by rewrite IH. Qed.

(** Replacing a text by itself changes nothing. *)
Lemma str_replace_same (s old : string) : str_replace s old old = s.
Proof.
  unfold str_replace. destruct old; [apply replace_empty_same|].
  apply replace_from_same.
Qed.

(** X18: with the default loader class the router serves script.js as it
    is: [__init__] replaces the placeholder ["__componentLoader__"] by
    the loader class, and replacing it by itself gives the template back;
    more generally [s.replace(old, old)] is [s] for every [s] and [old]. *)
Theorem X18_default_loader_class_keeps_script
    (JS_SCRIPT_TEMPLATE : string) (args : InitArgs)
    (lists lists' : gmap oid (list RouterDependency)) (router : Router) :
  init_loader_class args = "__componentLoader__" →
  RenderableRouter.__init__ JS_SCRIPT_TEMPLATE args lists = (lists', inr router) →
  _js_script (router_config router) = JS_SCRIPT_TEMPLATE ∧
  _loader_class (router_config router) = "__componentLoader__" ∧
  ∀ s old, str_replace s old old = s.
Proof.
  intros Hloader. unfold RenderableRouter.__init__.
  match goal with
  | |- context [match ?a with (_, _) => _ end] =>
      destruct a as [lists1 [e|[ref dependencies]]]
  end; [done|].
  intros [= _ <-]. cbn [router_config _js_script _loader_class]. rewrite Hloader.
  split; [exact (str_replace_same JS_SCRIPT_TEMPLATE "__componentLoader__")|].
  split; [done|]. apply str_replace_same.
Qed.

Lemma X18_witness :
  (init_loader_class (default_init_args DepsAbsent) = "__componentLoader__" ∧
   RenderableRouter.__init__ demo_script (default_init_args DepsAbsent) ∅ =
     ((RenderableRouter.__init__ demo_script (default_init_args DepsAbsent) ∅).1,
      inr {| router_config := default_router_config;
             router_dependencies := 0%N;
             router_own_dependencies := [SessionDependency default_router_config];
             router_routes :=
               [{| route_path := "/__renderable__/sse"; route_methods := ["GET"];
                   route_dependencies := [SessionDependency default_router_config];
                   route_endpoint := SseEndpoint |}] |})) ∧
  _js_script default_router_config = demo_script.
Proof.
  assert (H1 : init_loader_class (default_init_args DepsAbsent) = "__componentLoader__")
    by reflexivity.
  assert (H2 : RenderableRouter.__init__ demo_script (default_init_args DepsAbsent) ∅ =
     ((RenderableRouter.__init__ demo_script (default_init_args DepsAbsent) ∅).1,
      inr {| router_config := default_router_config;
             router_dependencies := 0%N;
             router_own_dependencies := [SessionDependency default_router_config];
             router_routes :=
               [{| route_path := "/__renderable__/sse"; route_methods := ["GET"];
                   route_dependencies := [SessionDependency default_router_config];
                   route_endpoint := SseEndpoint |}] |}))
    by (vm_compute; reflexivity).
  split; [done|].
  exact (proj1 (X18_default_loader_class_keeps_script demo_script
                  (default_init_args DepsAbsent) ∅ _ _ H1 H2)).
Defined.

(** X19: how [__init__] treats the [dependencies] keyword. A list is
    appended to in place: a list object used for two routers ends up
    holding the caller's entries followed by the session dependency of
    the first and then of the second router, and both routers are built
    on that one list. Without the keyword every router gets a new list
    that holds its own session dependency only, and no existing list
    changes. An explicit [None] or a tuple cannot be appended to:
    [__init__] raises [AttributeError] and no router is built. *)
Theorem X19_dependencies_list_is_extended_in_place
    (JS_SCRIPT_TEMPLATE : string) (args1 args2 : InitArgs)
    (lists : gmap oid (list RouterDependency)) :
  (∀ ref dependencies,
     lists !! ref = Some dependencies →
     init_dependencies args1 = DepsList ref →
     init_dependencies args2 = DepsList ref →
     ∃ lists1 router1 lists2 router2,
       RenderableRouter.__init__ JS_SCRIPT_TEMPLATE args1 lists = (lists1, inr router1) ∧
       RenderableRouter.__init__ JS_SCRIPT_TEMPLATE args2 lists1 = (lists2, inr router2) ∧
       router_dependencies router1 = ref ∧
       router_dependencies router2 = ref ∧
       lists2 !! ref =
         Some (dependencies ++ [SessionDependency (router_config router1);
                                SessionDependency (router_config router2)])) ∧
  (init_dependencies args1 = DepsAbsent →
   ∃ lists1 router1,
     RenderableRouter.__init__ JS_SCRIPT_TEMPLATE args1 lists = (lists1, inr router1) ∧
     lists !! router_dependencies router1 = None ∧
     lists1 !! router_dependencies router1 =
       Some [SessionDependency (router_config router1)] ∧
     ∀ ref, ref ≠ router_dependencies router1 → lists1 !! ref = lists !! ref) ∧
  (init_dependencies args1 = DepsNone ∨
   (∃ items, init_dependencies args1 = DepsTuple items) →
   ∃ e, RenderableRouter.__init__ JS_SCRIPT_TEMPLATE args1 lists = (lists, inl e)).
Proof.
  split; [|split].
  - intros ref dependencies Hl H1 H2.
    eexists _, _, _, _.
    split; [unfold RenderableRouter.__init__; rewrite H1, Hl; reflexivity|].
    split; [unfold RenderableRouter.__init__;
            rewrite H2, lookup_insert_eq; reflexivity|].
    cbn [router_dependencies router_config].
    rewrite lookup_insert_eq, <- app_assoc. done.
  - intros H1. unfold RenderableRouter.__init__. rewrite H1.
    eexists _, _. split; [reflexivity|]. simpl.
    split; [apply not_elem_of_dom, is_fresh|].
    split; [apply lookup_insert_eq|].
    intros ref Hne. by rewrite lookup_insert_ne.
  - intros [H1|[items H1]]; unfold RenderableRouter.__init__; rewrite H1; eauto.
Qed.

Lemma X19_witness :
  (shared_lists !! 5%N = Some [UserDependency (λ _, ret tt)] ∧
   init_dependencies (default_init_args (DepsList 5%N)) = DepsList 5%N) ∧
  ∃ lists1 router1 lists2 router2,
    RenderableRouter.__init__ demo_script (default_init_args (DepsList 5%N))
      shared_lists = (lists1, inr router1) ∧
    RenderableRouter.__init__ demo_script (default_init_args (DepsList 5%N))
      lists1 = (lists2, inr router2) ∧
    router_dependencies router1 = 5%N ∧
    router_dependencies router2 = 5%N ∧
    lists2 !! 5%N =
      Some ([UserDependency (λ _, ret tt)]
              ++ [SessionDependency (router_config router1);
                  SessionDependency (router_config router2)]).
Proof.
  assert (H1 : shared_lists !! 5%N = Some [UserDependency (λ _, ret tt)])
    by (vm_compute; reflexivity).
  split; [done|].
  exact (proj1 (X19_dependencies_list_is_extended_in_place demo_script
                  (default_init_args (DepsList 5%N))
                  (default_init_args (DepsList 5%N)) shared_lists)
           5%N _ H1 eq_refl eq_refl).
Defined.


Lemma component_adds_route (html : Tag → string) (self : RouterConfig)
    (args : ComponentArgs) (cls : oid) (app app' : App) :
  component html self args cls app = inr app' →
  ∃ c route,
    app_classes app !! cls = Some c ∧
    app_routes app' = app_routes app ++ [route] ∧
    route_path route =
      prefix self +:+
        os_path_join (or_str (arg_prefix args) (_loader_route_prefix self))
                     (or_str (arg_path args) (Comp.__name__ c)) ∧
    ∀ other, other ≠ cls → app_classes app' !! other = app_classes app !! other.
Proof.
  unfold component.
  destruct (app_classes app !! cls) as [c|]; [|done].
  destruct (Comp.view c) as [| |view_func]; [done|done|].
  match goal with
  | |- context [match ?r with inl e => inl e | inr fields => _ end] =>
      destruct r as [e|fields]
  end; [done|].
  intros [= <-]. eexists c, _. split; [done|]. unfold add_api_route. simpl.
  split; [reflexivity|]. split; [reflexivity|].
  intros other Hne. by rewrite lookup_insert_ne.
Qed.

(** X20: the default fragment url is built from the class name alone, so
    two different classes with the same name, decorated without [path]
    under the same prefix argument, are given the same url: both classes
    store it as their [_url], and both routes are registered at one and
    the same path, the router's prefix followed by that url. *)
Theorem X20_same_class_name_same_url
    (html : Tag → string) (self : RouterConfig) (args1 args2 : ComponentArgs)
    (cls1 cls2 : oid) (app app1 app2 : App) (c1 c2 : Comp.ClassObj) :
  cls1 ≠ cls2 →
  app_classes app !! cls1 = Some c1 →
  app_classes app !! cls2 = Some c2 →
  Comp.__name__ c1 = Comp.__name__ c2 →
  truthy_opt (arg_path args1) = false →
  truthy_opt (arg_path args2) = false →
  arg_prefix args1 = arg_prefix args2 →
  component html self args1 cls1 app = inr app1 →
  component html self args2 cls2 app1 = inr app2 →
  ∃ url route1 route2,
    app_routes app2 = app_routes app ++ [route1; route2] ∧
    route_path route1 = prefix self +:+ url ∧
    route_path route2 = prefix self +:+ url ∧
    Comp._url <$> (app_classes app2 !! cls1) = Some (Some url) ∧
    Comp._url <$> (app_classes app2 !! cls2) = Some (Some url).
Proof.
  intros Hne Hc1 Hc2 Hname Hp1 Hp2 Hprefix Hd1 Hd2.
  assert (Hor : ∀ (args : ComponentArgs) d,
            truthy_opt (arg_path args) = false → or_str (arg_path args) d = d).
  { intros args d H. unfold or_str. destruct (arg_path args) as [p|]; [|done].
    simpl in H. by rewrite H. }
  destruct (component_sets_class_attributes _ _ _ _ _ _ Hd1)
    as (c1' & v1 & Hc1' & _ & Hcl1 & _).
  destruct (component_adds_route _ _ _ _ _ _ Hd1)
    as (c1'' & route1 & Hc1'' & Hroutes1 & Hpath1 & Hother1).
  destruct (component_sets_class_attributes _ _ _ _ _ _ Hd2)
    as (c2' & v2 & Hc2' & _ & Hcl2 & _).
  destruct (component_adds_route _ _ _ _ _ _ Hd2)
    as (c2'' & route2 & Hc2'' & Hroutes2 & Hpath2 & Hother2).
  rewrite Hc1 in Hc1', Hc1''. injection Hc1' as <-. injection Hc1'' as <-.
  rewrite Hother1, Hc2 in Hc2', Hc2'' by done.
  injection Hc2' as <-. injection Hc2'' as <-.
  exists (os_path_join (or_str (arg_prefix args1) (_loader_route_prefix self))
            (Comp.__name__ c1)), route1, route2.
  rewrite Hroutes2, Hroutes1, <- app_assoc.
  split; [done|].
  rewrite Hpath1, Hpath2, !Hor, <- Hprefix, <- Hname by done.
  split; [done|]. split; [done|].
  rewrite Hcl2, lookup_insert_ne, lookup_insert_eq by done.
  rewrite Hcl1, lookup_insert_eq. simpl.
  by rewrite !Hor, <- Hprefix, <- Hname.
Qed.

Lemma X20_witness :
  (1%N ≠ 2%N ∧
   app_classes app_before !! 1%N = Some counter_class ∧
   app_classes app_before !! 2%N = Some counter_class ∧
   component demo_html prefixed_router args_plain 1%N app_before =
     inr (or_unchanged app_before
            (component demo_html prefixed_router args_plain 1%N app_before)) ∧
   component demo_html prefixed_router args_plain 2%N
     (or_unchanged app_before
        (component demo_html prefixed_router args_plain 1%N app_before)) =
     inr (or_unchanged app_before
            (component demo_html prefixed_router args_plain 2%N
               (or_unchanged app_before
                  (component demo_html prefixed_router args_plain 1%N app_before))))) ∧
  ∃ route1 route2,
    app_routes
      (or_unchanged app_before
         (component demo_html prefixed_router args_plain 2%N
            (or_unchanged app_before
               (component demo_html prefixed_router args_plain 1%N app_before)))) =
      app_routes app_before ++ [route1; route2] ∧
    route_path route1 = "/app/__renderable__/Counter" ∧
    route_path route2 = "/app/__renderable__/Counter".
Proof.
  assert (H0 : (1%N : oid) ≠ 2%N) by discriminate.
  assert (H1 : app_classes app_before !! 1%N = Some counter_class)
    by (vm_compute; reflexivity).
  assert (H2 : app_classes app_before !! 2%N = Some counter_class)
    by (vm_compute; reflexivity).
  assert (H3 : component demo_html prefixed_router args_plain 1%N app_before =
               inr (or_unchanged app_before
                      (component demo_html prefixed_router args_plain 1%N app_before)))
    by reflexivity.
  assert (H4 : component demo_html prefixed_router args_plain 2%N
                 (or_unchanged app_before
                    (component demo_html prefixed_router args_plain 1%N app_before)) =
               inr (or_unchanged app_before
                      (component demo_html prefixed_router args_plain 2%N
                         (or_unchanged app_before
                            (component demo_html prefixed_router args_plain 1%N
                               app_before)))))
    by reflexivity.
  split; [done|].
  destruct (X20_same_class_name_same_url demo_html prefixed_router args_plain
              args_plain 1%N 2%N app_before _ _ counter_class counter_class
              H0 H1 H2 eq_refl eq_refl eq_refl eq_refl H3 H4)
    as (url & route1 & route2 & Hroutes & Hp1 & Hp2 & Hu1 & _).
  exists route1, route2. split; [exact Hroutes|].
  assert (Hurl : url = "/__renderable__/Counter").
  { vm_compute in Hu1. by injection Hu1 as <-. }
  rewrite Hp1, Hp2, Hurl. split; reflexivity.
Defined.
